(** * Vapi call dashboard: the service client, the event normaliser,
      the webhook store and the call-monitor state machine

    A shallow embedding of [src/lib/vapi-service.ts] (the [VapiService]
    class and the [VapiCallMonitor] component that follows it in the same
    file) and of [src/lib/vapi-webhook-store.ts].

    JavaScript values are an inductive type, synchronous evaluation ends
    in a [Completion], an [async] function produces a [Promise] that is
    modelled by the way it settles, and the React component is a record of
    its state cells together with the browser objects (timers, sockets) it
    created. *)

From Stdlib Require Import ZArith List Lia String Ascii Bool Arith PeanoNat.
From Stdlib.Strings Require Import Byte.
From Stdlib Require Import DecimalString PrimFloat Uint63.
Import ListNotations.
Local Open Scope string_scope.
Local Open Scope nat_scope.

Set Implicit Arguments.
Set Warnings "-register-all,-inexact-float".

(** ** JavaScript values and effects *)

Module Js.

(** A thrown value: every error the modelled code meets is an [Error]
    object (or a subclass), identified by its name and message. *)
Record JsError : Type := mkError { name : string; message : string }.

Definition Error (msg : string) : JsError := mkError "Error" msg.
Definition TypeError (msg : string) : JsError := mkError "TypeError" msg.
Definition SyntaxError (msg : string) : JsError := mkError "SyntaxError" msg.

(** [`${err}`] for an error object. *)
Definition error_to_string (e : JsError) : string :=
  name e ++ ": " ++ message e.

(** Runtime values.  Numbers are restricted to the integers; [JBlob] and
    [JArrayBuffer] carry their bytes. *)
Inductive JsValue : Type :=
| JUndefined
| JNull
| JBool (b : bool)
| JNum (z : Z)
| JBigInt (z : Z)
| JStr (s : string)
| JSymbol (description : string)
| JFunction (source : string)
| JArr (elements : list JsValue)
| JObj (fields : list (string * JsValue))
| JBlob (bytes : list byte)
| JArrayBuffer (bytes : list byte).

Inductive TypeTag : Type :=
| TUndefined | TObject | TBoolean | TNumber | TBigInt | TString | TSymbol | TFunction.

Definition typeof (v : JsValue) : TypeTag :=
  match v with
  | JUndefined => TUndefined
  | JNull => TObject
  | JBool _ => TBoolean
  | JNum _ => TNumber
  | JBigInt _ => TBigInt
  | JStr _ => TString
  | JSymbol _ => TSymbol
  | JFunction _ => TFunction
  | JArr _ | JObj _ | JBlob _ | JArrayBuffer _ => TObject
  end.

Definition Array_isArray (v : JsValue) : bool :=
  match v with JArr _ => true | _ => false end.

(** ToBoolean. *)
Definition truthy (v : JsValue) : bool :=
  match v with
  | JUndefined | JNull => false
  | JBool b => b
  | JNum z | JBigInt z => negb (Z.eqb z 0)
  | JStr s => negb (String.eqb s "")
  | _ => true
  end.

Definition truthy_string (s : string) : bool := negb (String.eqb s "").

(** Property read on a value that is not nullish. *)
Fixpoint assoc (key : string) (fields : list (string * JsValue)) : JsValue :=
  match fields with
  | [] => JUndefined
  | (k, v) :: rest => if String.eqb k key then v else assoc key rest
  end.

Definition get (v : JsValue) (key : string) : JsValue :=
  match v with
  | JObj fields => assoc key fields
  | _ => JUndefined
  end.

(** [a || b] on values. *)
Definition or_else (a b : JsValue) : JsValue := if truthy a then a else b.

(** Outcome of evaluating a statement list synchronously. *)
Inductive Completion (A : Type) : Type :=
| Normal (a : A)
| Throw (e : JsError).
Arguments Throw {A} e.

(** A promise, identified with the way it eventually settles. *)
Inductive Promise (A : Type) : Type :=
| Fulfilled (a : A)
| Rejected (e : JsError).
Arguments Rejected {A} e.

Definition bind {A B : Type} (c : Completion A) (k : A -> Completion B) : Completion B :=
  match c with
  | Normal a => k a
  | Throw e => Throw e
  end.

(** [await p] inside an async function: a rejection is rethrown at the
    point of the [await]. *)
Definition await {A : Type} (p : Promise A) : Completion A :=
  match p with
  | Fulfilled a => Normal a
  | Rejected e => Throw e
  end.

(** [try { body } catch (error) { handler }]: only what is thrown while
    the body is being evaluated reaches the handler. *)
Definition try_catch {A : Type} (body : Completion A) (handler : JsError -> Completion A)
  : Completion A :=
  match body with
  | Normal a => Normal a
  | Throw e => handler e
  end.

(** An [async] function whose body completes with a plain value. *)
Definition async {A : Type} (body : Completion A) : Promise A :=
  match body with
  | Normal a => Fulfilled a
  | Throw e => Rejected e
  end.

(** An [async] function whose [return] operand is itself a promise: the
    function's promise is resolved with it and settles the way it does. *)
Definition async_resolve {A : Type} (body : Completion (Promise A)) : Promise A :=
  match body with
  | Normal p => p
  | Throw e => Rejected e
  end.

Definition string_of_nat (n : nat) : string :=
  NilZero.string_of_uint (Nat.to_uint n).

Definition string_of_N (n : N) : string :=
  NilZero.string_of_uint (N.to_uint n).

(** The platform built-ins the code calls. *)
Record Builtins : Type := {
  JSON_parse : string -> Completion JsValue;
  JSON_stringify : JsValue -> Completion string;
  String_coerce : JsValue -> string;
  TextDecoder_decode : list byte -> string;
  Blob_text : list byte -> Promise string;
  Blob_arrayBuffer : list byte -> Promise (list byte);
  URL_createObjectURL : list byte -> string
}.

(** Property read [v.key] with no optional chaining: reading from
    [undefined] or [null] throws. *)
Definition get_strict (v : JsValue) (key : string) : Completion JsValue :=
  match v with
  | JUndefined | JNull =>
      Throw (TypeError ("Cannot read properties of undefined (reading '" ++ key ++ "')"))
  | _ => Normal (get v key)
  end.

(** [v === true] *)
Definition is_true (v : JsValue) : bool :=
  match v with JBool true => true | _ => false end.

(** [v === s] for a string [s] *)
Definition is_string (s : string) (v : JsValue) : bool :=
  match v with JStr s' => String.eqb s' s | _ => false end.

End Js.

Import Js.

Declare Scope js_scope.
Notation "x <- c ;; k" := (Js.bind c (fun x => k))
  (at level 61, c at next level, right associativity) : js_scope.
Local Open Scope js_scope.

(** ** The API client, [class VapiService] *)

Module VapiService.

Record RequestInit : Type := {
  method : option string;
  headers : list (string * string);
  body : option string
}.

Definition no_options : RequestInit :=
  {| method := None; headers := []; body := None |}.

Record Response : Type := {
  ok : bool;
  status : nat;
  text : Promise string;
  json : Promise JsValue
}.

Section Client.

Variable B : Builtins.
Variable baseUrl apiKey : string.
Variable fetch : string -> RequestInit -> Promise Response.

(** [private async request(endpoint, options = {})].  Console output and
    the [vapiApiCall] window event carry copies of the values below and do
    not take part in the returned promise; they are not represented. *)
Definition request (endpoint : string) (options : RequestInit) : Promise JsValue :=
  let url := baseUrl ++ endpoint in
  let defaultHeaders :=
    [("Authorization", "Bearer " ++ apiKey); ("Content-Type", "application/json")] in
  let config :=
    {| method := method options;
       headers := defaultHeaders ++ headers options;
       body := body options |} in
  async
    (_ <- match body config with
          | Some b => if truthy_string b then JSON_parse B b else Normal JUndefined
          | None => Normal JUndefined
          end ;;
     try_catch
       (response <- await (fetch url config) ;;
        if negb (ok response)
        then
          errorText <- await (text response) ;;
          Throw (Error ("HTTP " ++ string_of_nat (status response) ++ ": " ++ errorText))
        else
          data <- await (json response) ;;
          Normal data)
       (fun error => Throw error)).

Definition list_or_empty (response : JsValue) : JsValue :=
  if Array_isArray response then response else JArr [].

Definition getPhoneNumbers : Promise JsValue :=
  async
    (try_catch
       (response <- await (request "/phone-number" no_options) ;;
        Normal (list_or_empty response))
       (fun _ => Normal (JArr []))).

Definition getAssistants : Promise JsValue :=
  async
    (try_catch
       (response <- await (request "/assistant" no_options) ;;
        Normal (list_or_empty response))
       (fun _ => Normal (JArr []))).

Definition getCredentials : Promise JsValue :=
  async
    (try_catch
       (response <- await (request "/credential" no_options) ;;
        Normal (list_or_empty response))
       (fun _ => Normal (JArr []))).

Definition unsupported_update : JsError :=
  Error "Credential updates are not supported by VAPI API. Please delete and recreate the credential instead.".

(** [async updateCredential(credentialId, credentialData)].  The [try]
    block is [return this.request(...)] with no [await]: evaluating it
    builds the request promise and leaves the block, so the handler sees
    only what [JSON.stringify] throws while the argument is prepared. *)
Definition updateCredential (credentialId : string) (credentialData : JsValue)
  : Promise JsValue :=
  async_resolve
    (try_catch
       (payload <- JSON_stringify B credentialData ;;
        Normal (request ("/credential/" ++ credentialId)
                  {| method := Some "PATCH"; headers := []; body := Some payload |}))
       (fun _ => Throw unsupported_update)).

Definition deleteCredential (credentialId : string) : Promise JsValue :=
  request ("/credential/" ++ credentialId)
    {| method := Some "DELETE"; headers := []; body := None |}.

Definition getCall (callId : string) : Promise JsValue :=
  request ("/call/" ++ callId) no_options.

(** *** The other operations of the class *)

Definition listCredentials : Promise JsValue := request "/credential" no_options.

Definition createCredential (credentialData : JsValue) : Promise JsValue :=
  async_resolve
    (payload <- JSON_stringify B credentialData ;;
     Normal (request "/credential"
               {| method := Some "POST"; headers := []; body := Some payload |})).

Definition createPhoneNumber (phoneNumberData : JsValue) : Promise JsValue :=
  async_resolve
    (payload <- JSON_stringify B phoneNumberData ;;
     Normal (request "/phone-number"
               {| method := Some "POST"; headers := []; body := Some payload |})).

Definition deletePhoneNumber (phoneNumberId : string) : Promise JsValue :=
  request ("/phone-number/" ++ phoneNumberId)
    {| method := Some "DELETE"; headers := []; body := None |}.

(** [allPhoneNumbers.filter(phone => phone.credentialId === credentialId)]:
    the callback runs on the elements in order and throws on a nullish one. *)
Fixpoint filter_by_credential (credentialId : string) (phones : list JsValue)
  : Completion (list JsValue) :=
  match phones with
  | [] => Normal []
  | phone :: rest =>
      c <- get_strict phone "credentialId" ;;
      kept <- filter_by_credential credentialId rest ;;
      Normal (if is_string credentialId c then phone :: kept else kept)
  end.

Definition getPhoneNumbersByCredential (credentialId : string) : Promise JsValue :=
  async
    (try_catch
       (allPhoneNumbers <- await getPhoneNumbers ;;
        match allPhoneNumbers with
        | JArr phones =>
            kept <- filter_by_credential credentialId phones ;;
            Normal (JArr kept)
        | _ => Throw (TypeError "allPhoneNumbers.filter is not a function")
        end)
       (fun _ => Normal (JArr []))).

Definition updateAssistant (assistantId : string) (updates : JsValue) : Promise JsValue :=
  async_resolve
    (payload <- JSON_stringify B updates ;;
     Normal (request ("/assistant/" ++ assistantId)
               {| method := Some "PATCH"; headers := []; body := Some payload |})).

(** [options: { listen?: boolean, control?: boolean }] *)
Record MonitoringOptions : Type := { listen : option bool; control : option bool }.

Definition default_options : MonitoringOptions := {| listen := None; control := None |}.

(** [flag !== false] *)
Definition not_false (flag : option bool) : bool :=
  match flag with Some false => false | _ => true end.

Definition monitorPlan_of (options : MonitoringOptions) : JsValue :=
  JObj [("listenEnabled", JBool (not_false (listen options)));
        ("listenAuthenticationEnabled", JBool false);
        ("controlEnabled", JBool (not_false (control options)));
        ("controlAuthenticationEnabled", JBool false)].

Definition enableAssistantMonitoring (assistantId : string) (options : MonitoringOptions)
  : Promise JsValue :=
  updateAssistant assistantId (JObj [("monitorPlan", monitorPlan_of options)]).

Definition getAssistant (assistantId : string) : Promise JsValue :=
  request ("/assistant/" ++ assistantId) no_options.

(** The request body of [makeCall]: [customerName || 'Customer'], and
    [metadata] only when it is given and has a key. *)
Definition call_payload (assistantId phoneNumberId customerNumber : string)
  (customerName : option string) (metadata : option (list (string * JsValue)))
  : JsValue :=
  JObj ([("assistantId", JStr assistantId);
         ("phoneNumberId", JStr phoneNumberId);
         ("customer",
          JObj [("number", JStr customerNumber);
                ("name",
                 JStr (match customerName with
                       | Some n => if truthy_string n then n else "Customer"
                       | None => "Customer"
                       end))])]
        ++ match metadata with
           | Some (field :: fields) => [("metadata", JObj (field :: fields))]
           | _ => []
           end).

Definition makeCall (assistantId phoneNumberId customerNumber : string)
  (customerName : option string) (metadata : option (list (string * JsValue)))
  : Promise JsValue :=
  async_resolve
    (_ <- try_catch
            (_ <- await (enableAssistantMonitoring assistantId default_options) ;;
             Normal tt)
            (fun _ => Normal tt) ;;
     payload <- JSON_stringify B
                  (call_payload assistantId phoneNumberId customerNumber customerName
                     metadata) ;;
     Normal (request "/call"
               {| method := Some "POST"; headers := []; body := Some payload |})).

Definition getMonitoringRecommendation (monitorPlan : JsValue) : string :=
  if negb (truthy monitorPlan)
  then "Enable monitoring plan to get WebSocket URLs for real-time call monitoring"
  else
    let listenEnabled := truthy (get monitorPlan "listenEnabled") in
    let controlEnabled := truthy (get monitorPlan "controlEnabled") in
    if negb listenEnabled && negb controlEnabled
    then "Enable listening or control features for WebSocket connectivity"
    else if listenEnabled && controlEnabled
    then "Monitoring fully configured - WebSocket connections should work"
    else if listenEnabled
    then "Listen monitoring enabled - control monitoring can also be enabled"
    else "Control monitoring enabled - listen monitoring can also be enabled".

Record Monitoring : Type := {
  configured : bool;
  listenEnabled : bool;
  controlEnabled : bool;
  listenAuth : bool;
  controlAuth : bool
}.

Record MonitoringStatus : Type := {
  status_assistantId : string;
  assistantName : JsValue;
  monitoring : Monitoring;
  recommendation : string
}.

Definition verifyAssistantMonitoring (assistantId : string) : Promise MonitoringStatus :=
  async
    (try_catch
       (assistant <- await (getAssistant assistantId) ;;
        plan <- get_strict assistant "monitorPlan" ;;
        let monitorPlan := or_else plan (JObj []) in
        name <- get_strict assistant "name" ;;
        Normal
          {| status_assistantId := assistantId;
             assistantName := name;
             monitoring :=
               {| configured := truthy plan;
                  listenEnabled := is_true (get monitorPlan "listenEnabled");
                  controlEnabled := is_true (get monitorPlan "controlEnabled");
                  listenAuth := is_true (get monitorPlan "listenAuthenticationEnabled");
                  controlAuth := is_true (get monitorPlan "controlAuthenticationEnabled") |};
             recommendation := getMonitoringRecommendation monitorPlan |})
       (fun error => Throw error)).

End Client.

(** *** [getApiDescription] *)

(** [s.split('?')[0]] *)
Fixpoint before_question (s : string) : string :=
  match s with
  | EmptyString => EmptyString
  | String c rest =>
      if Ascii.eqb c "?"%char then EmptyString else String c (before_question rest)
  end.

Fixpoint no_slash (s : string) : bool :=
  match s with
  | EmptyString => true
  | String c rest => negb (Ascii.eqb c "/"%char) && no_slash rest
  end.

(** The text after [prefix] in [s], when [s] starts with [prefix]. *)
Fixpoint after_prefix (prefix s : string) : option string :=
  match prefix, s with
  | EmptyString, _ => Some s
  | String a prefix', String b s' =>
      if Ascii.eqb a b then after_prefix prefix' s' else None
  | String _ _, EmptyString => None
  end.

(** The regular expression [^prefix[^\/]+$] *)
Definition matches_with_id (prefix key : string) : bool :=
  match after_prefix prefix key with
  | Some rest => negb (String.eqb rest "") && no_slash rest
  | None => false
  end.

(** The regular expression [^prefix] *)
Definition matches_start (prefix key : string) : bool :=
  match after_prefix prefix key with
  | Some _ => true
  | None => false
  end.

Definition dynamicDescriptions : list ((string -> bool) * string) :=
  [(matches_start "GET /phone-number?", "Fetch phone numbers with query parameters");
   (matches_with_id "DELETE /phone-number/", "Delete specific phone number by ID");
   (matches_with_id "DELETE /credential/", "Delete specific SIP trunk credential by ID");
   (matches_with_id "PATCH /credential/", "Update specific SIP trunk credential by ID");
   (matches_with_id "GET /call/", "Fetch specific call details by ID");
   (matches_with_id "DELETE /assistant/", "Delete specific AI assistant by ID")].

Definition descriptions : list (string * string) :=
  [("GET /phone-number", "Fetch all phone numbers from VAPI account");
   ("POST /phone-number", "Create new phone number and associate with SIP trunk");
   ("DELETE /phone-number", "Delete phone number from VAPI account");
   ("GET /credential", "Fetch all SIP trunk credentials from VAPI account");
   ("POST /credential", "Create new SIP trunk credential for call routing");
   ("DELETE /credential", "Delete SIP trunk credential from VAPI account");
   ("PATCH /credential", "Update existing SIP trunk credential settings");
   ("GET /assistant", "Fetch all AI assistants from VAPI account");
   ("POST /assistant", "Create new AI assistant with model and voice settings");
   ("DELETE /assistant", "Delete AI assistant from VAPI account");
   ("POST /call", "Initiate outbound phone call using VAPI AI assistant");
   ("GET /call", "Fetch call history and details from VAPI account")].

(** The [for ... of] loop over the patterns. *)
Fixpoint first_match (patterns : list ((string -> bool) * string)) (key : string)
  : option string :=
  match patterns with
  | [] => None
  | (pattern, description) :: rest =>
      if pattern key then Some description else first_match rest key
  end.

(** [descriptions[key]] *)
Fixpoint lookup (table : list (string * string)) (key : string) : option string :=
  match table with
  | [] => None
  | (k, d) :: rest => if String.eqb k key then Some d else lookup rest key
  end.

Definition getApiDescription (endpoint method : string) : string :=
  let key := method ++ " " ++ before_question endpoint in
  match first_match dynamicDescriptions key with
  | Some description => description
  | None =>
      match lookup descriptions key with
      | Some description => description
      | None => method ++ " request to " ++ endpoint
      end
  end.

End VapiService.

(** ** The call monitor, [function VapiCallMonitor()] *)

Module VapiCallMonitor.

(** *** The event normaliser, [normalizeWsData] *)

Record Normalized : Type := {
  parsed : JsValue;
  isJson : bool;
  raw : string;
  isBinary : option bool;
  url : option string;
  size : option nat
}.

(** Object literals of the source that leave the optional fields out. *)
Definition plain (p : JsValue) (j : bool) (r : string) : Normalized :=
  {| parsed := p; isJson := j; raw := r; isBinary := None; url := None; size := None |}.

Definition binary_entry (u : string) (n : nat) : Normalized :=
  {| parsed := JObj [("binary", JBool true)]; isJson := false; raw := "";
     isBinary := Some true; url := Some u; size := Some n |}.

Definition unreadable : Normalized :=
  plain (JStr "<unreadable binary>") false "".

(** [b === 9 || b === 10 || b === 13 || (b >= 32 && b <= 126)] *)
Definition is_printable (b : byte) : bool :=
  let n := Byte.to_nat b in
  (n =? 9) || (n =? 10) || (n =? 13) || ((32 <=? n) && (n <=? 126)).

(** The counting loop [for (let i = 0; i < limit; i++)] over [bytes],
    started at index [0] with [printable = 0]. *)
Fixpoint count_printable (limit : nat) (bytes : list byte) (printable : nat) : nat :=
  match limit, bytes with
  | S limit', b :: rest =>
      count_printable limit' rest (if is_printable b then S printable else printable)
  | _, _ => printable
  end.

(** A JavaScript number holding a small natural number. *)
Definition number_of_nat (n : nat) : float :=
  PrimFloat.of_uint63 (Uint63.of_Z (Z.of_nat n)).

(** [bytes.length || 1] *)
Definition length_or_one (bytes : list byte) : nat :=
  if List.length bytes =? 0 then 1 else List.length bytes.

(** [printable / Math.min(512, bytes.length || 1)], a binary64 division. *)
Definition printable_ratio (bytes : list byte) : float :=
  let printable := count_printable (Nat.min 512 (List.length bytes)) bytes 0 in
  PrimFloat.div (number_of_nat printable)
                (number_of_nat (Nat.min 512 (length_or_one bytes))).

(** [ratio > 0.6] *)
Definition looks_like_text (bytes : list byte) : bool :=
  PrimFloat.ltb 0.6%float (printable_ratio bytes).

Section Normalizer.

Variable B : Builtins.

(** [try { return {parsed: JSON.parse(t), isJson: true, raw: t} }
     catch { return {parsed: t, isJson: false, raw: t} }] *)
Definition parse_or_text (t : string) : Completion Normalized :=
  try_catch
    (v <- JSON_parse B t ;; Normal (plain v true t))
    (fun _ => Normal (plain (JStr t) false t)).

Definition normalizeWsData (data : JsValue) : Promise Normalized :=
  async
    (try_catch
       match data with
       | JStr s => parse_or_text s
       | JBlob bytes =>
           let slice := firstn 256 bytes in
           text <- await (Blob_text B slice) ;;
           try_catch
             (v <- JSON_parse B text ;; Normal (plain v true text))
             (fun _ =>
                fullArrayBuffer <- await (Blob_arrayBuffer B bytes) ;;
                let size := List.length fullArrayBuffer in
                let url := URL_createObjectURL B fullArrayBuffer in
                Normal (binary_entry url size))
       | JArrayBuffer bytes =>
           if looks_like_text bytes
           then parse_or_text (TextDecoder_decode B bytes)
           else
             let size := List.length bytes in
             let url := URL_createObjectURL B bytes in
             Normal (binary_entry url size)
       | _ =>
           match typeof data with
           | TObject =>
               r <- JSON_stringify B data ;;
               Normal (plain data true r)
           | _ =>
               let fallback := String_coerce B data in
               Normal (plain (JStr fallback) false fallback)
           end
       end
       (fun _ => Normal unreadable)).

End Normalizer.

(** *** Data of the component *)

(** [interface CallResponse], restricted to the fields the monitor logic
    reads.  An absent string field and an empty one are both falsy and are
    both written [""]. *)
Record Monitor : Type := { listenUrl : string; controlUrl : string }.

Record CallResponse : Type := {
  id : string;
  status : string;
  monitor : option Monitor
}.

Inductive Source : Type := listen | poll.

(** The shapes the [data: any] field of a log entry takes. *)
Inductive MessageData : Type :=
| Text (s : string)
| PollUpdate (callId : string) (updated : CallResponse)
| Parsed (v : JsValue)
| BinaryRef (binary_url : option string) (binary_size : option nat).

(** [interface WebSocketMessage].  The timestamp is the number of the
    clock reading that produced it. *)
Record WebSocketMessage : Type := {
  type : string;
  data : MessageData;
  timestamp : nat;
  source : Source
}.

(** [interface WebSocketConnection]; [ws] names the socket object. *)
Record WebSocketConnection : Type := {
  conn_url : string;
  ws : option positive;
  connected : bool;
  retryCount : nat
}.

(** *** Browser objects *)

Inductive ReadyState : Type := CONNECTING | OPEN | CLOSING | CLOSED.

(** A socket made by [new WebSocket(wsUrl)] inside [connectWebSocket].
    Its handlers are closures: [seen] is the [wsConnection] constant of the
    render whose [connectWebSocket] made the socket, and
    [connectionTimeout] the handle of the timer armed next to it. *)
Record Socket : Type := {
  socket_id : positive;
  socket_url : string;
  readyState : ReadyState;
  seen : WebSocketConnection;
  connectionTimeout : positive
}.

Inductive TimerTask : Type :=
| PollTick (callId : string) (closure : WebSocketConnection)
| ConnectionTimeout (socket : positive)
| Retry (wsUrl : string) (closure : WebSocketConnection) (retryDelay : N).

Record Timer : Type := {
  handle : positive;
  delay : N;
  repeats : bool;
  task : TimerTask
}.

(** Calls into the browser, in the order they are made. *)
Inductive BrowserCall : Type :=
| SetInterval (h : positive) (ms : N)
| ClearInterval (h : positive)
| SetTimeout (h : positive) (ms : N)
| ClearTimeout (h : positive)
| NewWebSocket (w : positive) (wsUrl : string)
| CloseWebSocket (w : positive).

(** The state cells and refs of the component, the browser objects it
    owns, and the record of its browser calls. *)
Record State : Type := {
  wsMessages : list WebSocketMessage;
  wsConnection : WebSocketConnection;
  listenWsRef : option positive;
  pollRef : option positive;
  sockets : list Socket;
  timers : list Timer;
  next_handle : positive;
  clock : nat;
  calls : list BrowserCall
}.

Definition initial : State :=
  {| wsMessages := [];
     wsConnection := {| conn_url := ""; ws := None; connected := false; retryCount := 0 |};
     listenWsRef := None;
     pollRef := None;
     sockets := [];
     timers := [];
     next_handle := 1%positive;
     clock := 0;
     calls := [] |}.

Definition with_wsMessages (l : list WebSocketMessage) (st : State) : State :=
  {| wsMessages := l; wsConnection := wsConnection st; listenWsRef := listenWsRef st;
     pollRef := pollRef st; sockets := sockets st; timers := timers st;
     next_handle := next_handle st; clock := clock st; calls := calls st |}.

Definition with_wsConnection (c : WebSocketConnection) (st : State) : State :=
  {| wsMessages := wsMessages st; wsConnection := c; listenWsRef := listenWsRef st;
     pollRef := pollRef st; sockets := sockets st; timers := timers st;
     next_handle := next_handle st; clock := clock st; calls := calls st |}.

Definition with_listenWsRef (r : option positive) (st : State) : State :=
  {| wsMessages := wsMessages st; wsConnection := wsConnection st; listenWsRef := r;
     pollRef := pollRef st; sockets := sockets st; timers := timers st;
     next_handle := next_handle st; clock := clock st; calls := calls st |}.

Definition with_pollRef (r : option positive) (st : State) : State :=
  {| wsMessages := wsMessages st; wsConnection := wsConnection st;
     listenWsRef := listenWsRef st; pollRef := r; sockets := sockets st;
     timers := timers st; next_handle := next_handle st; clock := clock st;
     calls := calls st |}.

Definition with_sockets (l : list Socket) (st : State) : State :=
  {| wsMessages := wsMessages st; wsConnection := wsConnection st;
     listenWsRef := listenWsRef st; pollRef := pollRef st; sockets := l;
     timers := timers st; next_handle := next_handle st; clock := clock st;
     calls := calls st |}.

Definition with_timers (l : list Timer) (st : State) : State :=
  {| wsMessages := wsMessages st; wsConnection := wsConnection st;
     listenWsRef := listenWsRef st; pollRef := pollRef st; sockets := sockets st;
     timers := l; next_handle := next_handle st; clock := clock st;
     calls := calls st |}.

Definition with_clock (n : nat) (st : State) : State :=
  {| wsMessages := wsMessages st; wsConnection := wsConnection st;
     listenWsRef := listenWsRef st; pollRef := pollRef st; sockets := sockets st;
     timers := timers st; next_handle := next_handle st; clock := n;
     calls := calls st |}.

Definition with_next_handle (h : positive) (st : State) : State :=
  {| wsMessages := wsMessages st; wsConnection := wsConnection st;
     listenWsRef := listenWsRef st; pollRef := pollRef st; sockets := sockets st;
     timers := timers st; next_handle := h; clock := clock st; calls := calls st |}.

Definition with_calls (l : list BrowserCall) (st : State) : State :=
  {| wsMessages := wsMessages st; wsConnection := wsConnection st;
     listenWsRef := listenWsRef st; pollRef := pollRef st; sockets := sockets st;
     timers := timers st; next_handle := next_handle st; clock := clock st;
     calls := l |}.

(** Records one browser call. *)
Definition call (c : BrowserCall) (st : State) : State :=
  with_calls (calls st ++ [c]) st.

(** Hands out the next object handle. *)
Definition fresh (st : State) : positive * State :=
  (next_handle st, with_next_handle (Pos.succ (next_handle st)) st).

(** *** Browser primitives *)

Definition setInterval (t : TimerTask) (ms : N) (st : State) : positive * State :=
  let (h, st) := fresh st in
  (h, call (SetInterval h ms)
        (with_timers (timers st ++ [{| handle := h; delay := ms; repeats := true; task := t |}]) st)).

Definition setTimeout (t : TimerTask) (ms : N) (st : State) : positive * State :=
  let (h, st) := fresh st in
  (h, call (SetTimeout h ms)
        (with_timers (timers st ++ [{| handle := h; delay := ms; repeats := false; task := t |}]) st)).

Definition remove_timer (h : positive) (l : list Timer) : list Timer :=
  filter (fun t => negb (Pos.eqb (handle t) h)) l.

Definition clearInterval (h : positive) (st : State) : State :=
  call (ClearInterval h) (with_timers (remove_timer h (timers st)) st).

Definition clearTimeout (h : positive) (st : State) : State :=
  call (ClearTimeout h) (with_timers (remove_timer h (timers st)) st).

Definition find_socket (w : positive) (st : State) : option Socket :=
  find (fun s => Pos.eqb (socket_id s) w) (sockets st).

Definition set_readyState (w : positive) (r : ReadyState) (st : State) : State :=
  with_sockets
    (map (fun s =>
            if Pos.eqb (socket_id s) w
            then {| socket_id := socket_id s; socket_url := socket_url s; readyState := r;
                    seen := seen s; connectionTimeout := connectionTimeout s |}
            else s)
         (sockets st))
    st.

(** [ws.close()]: a socket that is connecting or open starts closing. *)
Definition socket_close (w : positive) (st : State) : State :=
  let st := call (CloseWebSocket w) st in
  match find_socket w st with
  | Some s =>
      match readyState s with
      | CONNECTING | OPEN => set_readyState w CLOSING st
      | _ => st
      end
  | None => st
  end.

(** [Array.prototype.slice(start)] *)
Definition slice {A : Type} (start : Z) (l : list A) : list A :=
  let len := Z.of_nat (List.length l) in
  let k := if (start <? 0)%Z then Z.max (len + start) 0 else Z.min start len in
  skipn (Z.to_nat k) l.

(** *** Handlers of the component *)

Section Handlers.

Variable B : Builtins.

(** Whether [new WebSocket(wsUrl)] constructs a socket or throws. *)
Variable WebSocket_new : string -> Completion unit.

(** [setWsMessages(prev => [...prev, message].slice(-100))] *)
Definition addWsMessage (type : string) (data : MessageData) (source : Source)
  (st : State) : State :=
  let message :=
    {| type := type; data := data; timestamp := clock st; source := source |} in
  with_wsMessages (slice (-100) (wsMessages st ++ [message]))
    (with_clock (S (clock st)) st).

Definition setWsConnection (f : WebSocketConnection -> WebSocketConnection)
  (st : State) : State :=
  with_wsConnection (f (wsConnection st)) st.

Definition set_connected (b : bool) (prev : WebSocketConnection) : WebSocketConnection :=
  {| conn_url := conn_url prev; ws := ws prev; connected := b; retryCount := retryCount prev |}.

Definition stopPollingCall (st : State) : State :=
  match pollRef st with
  | Some h =>
      let st := clearInterval h st in
      let st := with_pollRef None st in
      addWsMessage "poll" (Text "Stopped polling for call updates") poll st
  | None => st
  end.

Definition disconnectWebSockets (st : State) : State :=
  let st :=
    match listenWsRef st with
    | Some w => with_listenWsRef None (socket_close w st)
    | None => st
    end in
  setWsConnection
    (fun prev => {| conn_url := conn_url prev; ws := ws prev;
                    connected := false; retryCount := 0 |})
    st.

(** [connectWebSocket(wsUrl)] as defined in the render whose
    [wsConnection] is [closure]. *)
Definition connectWebSocket (closure : WebSocketConnection) (wsUrl : string)
  (st : State) : State :=
  let st := addWsMessage "connection" (Text ("Connecting to listen WebSocket: " ++ wsUrl))
              listen st in
  match WebSocket_new wsUrl with
  | Normal _ =>
      let (w, st) := fresh st in
      let st := call (NewWebSocket w wsUrl) st in
      let st := with_listenWsRef (Some w) st in
      let st := setWsConnection
                  (fun prev => {| conn_url := wsUrl; ws := Some w;
                                  connected := connected prev; retryCount := 0 |}) st in
      let (t, st) := setTimeout (ConnectionTimeout w) 10000%N st in
      with_sockets
        (sockets st ++ [{| socket_id := w; socket_url := wsUrl; readyState := CONNECTING;
                           seen := closure; connectionTimeout := t |}])
        st
  | Throw error =>
      addWsMessage "error"
        (Text ("Failed to create listen WebSocket connection: " ++ error_to_string error))
        listen st
  end.

Definition connectWebSockets (closure : WebSocketConnection)
  (listenUrl controlUrl : string) (st : State) : State :=
  let st := disconnectWebSockets st in
  let st := if truthy_string listenUrl then connectWebSocket closure listenUrl st else st in
  if truthy_string controlUrl
  then addWsMessage "info"
         (Text ("Control URL provided (not opened in browser): " ++ controlUrl)) listen st
  else st.

Definition startPollingCall (closure : WebSocketConnection) (callId : string)
  (st : State) : State :=
  let st := stopPollingCall st in
  let st := addWsMessage "poll" (Text ("Starting polling for call " ++ callId)) poll st in
  let (h, st) := setInterval (PollTick callId closure) 3000%N st in
  with_pollRef (Some h) st.

(** [updated?.monitor?.listenUrl || updated?.monitor?.controlUrl] *)
Definition monitor_url_present (updated : CallResponse) : bool :=
  match monitor updated with
  | Some m => truthy_string (listenUrl m) || truthy_string (controlUrl m)
  | None => false
  end.

Definition monitor_listenUrl (c : CallResponse) : string :=
  match monitor c with Some m => listenUrl m | None => "" end.

Definition monitor_controlUrl (c : CallResponse) : string :=
  match monitor c with Some m => controlUrl m | None => "" end.

(** [updated?.status && ['ended', 'completed', 'failed'].includes(updated.status)] *)
Definition is_terminal (updated : CallResponse) : bool :=
  truthy_string (status updated)
  && existsb (String.eqb (status updated)) ["ended"; "completed"; "failed"].

(** The body of the interval callback of [startPollingCall], from the point
    where [await vapiService.getCall(callId)] settles with [result]. *)
Definition poll_tick (closure : WebSocketConnection) (callId : string)
  (result : Promise CallResponse) (st : State) : State :=
  match result with
  | Fulfilled updated =>
      let st := addWsMessage "poll" (PollUpdate callId updated) poll st in
      let st :=
        if monitor_url_present updated
        then
          let st := addWsMessage "connection" (Text "Discovered monitor URLs via polling")
                      poll st in
          let st := connectWebSockets closure (monitor_listenUrl updated)
                      (monitor_controlUrl updated) st in
          stopPollingCall st
        else st in
      if is_terminal updated
      then
        let st := addWsMessage "poll"
                    (Text ("Call " ++ callId ++ " ended with status " ++ status updated
                           ++ ", stopping poll")) poll st in
        stopPollingCall st
      else st
  | Rejected err =>
      addWsMessage "error"
        (Text ("Polling error for call " ++ callId ++ ": " ++ error_to_string err)) poll st
  end.

(** [makeCall] and [makeManualCall] from the point where
    [await vapiService.makeCall(...)] settles; [closure] is the
    [wsConnection] of the render in which the button was pressed. *)
Definition call_settled (closure : WebSocketConnection)
  (result : Promise CallResponse) (st : State) : State :=
  match result with
  | Fulfilled response =>
      if truthy_string (monitor_listenUrl response)
      then connectWebSockets closure (monitor_listenUrl response)
             (monitor_controlUrl response) st
      else if truthy_string (id response)
      then startPollingCall closure (id response) st
      else st
  | Rejected _ => st
  end.

(** The [setTimeout] callback armed by [connectWebSocket]. *)
Definition connection_timeout (w : positive) (st : State) : State :=
  match find_socket w st with
  | Some s =>
      match readyState s with
      | CONNECTING =>
          let st := socket_close w st in
          let st := addWsMessage "error"
                      (Text "Listen WebSocket connection timeout after 10 seconds")
                      listen st in
          setWsConnection (set_connected false) st
      | _ => st
      end
  | None => st
  end.

(** [ws.onopen] *)
Definition onopen (s : Socket) (st : State) : State :=
  let st := clearTimeout (connectionTimeout s) st in
  let st := setWsConnection (set_connected true) st in
  addWsMessage "connection" (Text "Listen WebSocket connected successfully") listen st.

(** [ws.onclose]; the retry test and the delay read [wsConnection] of the
    closure, the state update inside the timer reads the live cell. *)
Definition onclose (s : Socket) (wasClean : bool) (code : N) (reason : string)
  (st : State) : State :=
  let st := clearTimeout (connectionTimeout s) st in
  let st := setWsConnection (set_connected false) st in
  if wasClean
  then addWsMessage "connection"
         (Text ("Listen WebSocket disconnected cleanly (code: " ++ string_of_N code ++ ")"))
         listen st
  else
    let st := addWsMessage "connection"
                (Text ("Listen WebSocket disconnected unexpectedly (code: "
                       ++ string_of_N code ++ ", reason: " ++ reason ++ ")"))
                listen st in
    if retryCount (seen s) <? 3
    then
      let retryDelay := (2 ^ N.of_nat (retryCount (seen s)) * 1000)%N in
      snd (setTimeout (Retry (socket_url s) (seen s) retryDelay) retryDelay st)
    else st.

(** The [setTimeout] callback armed by [ws.onclose]. *)
Definition retry (wsUrl : string) (closure : WebSocketConnection) (retryDelay : N)
  (st : State) : State :=
  let st := addWsMessage "connection"
              (Text ("Retrying listen connection (attempt "
                     ++ string_of_nat (retryCount closure + 1) ++ "/3) in "
                     ++ string_of_N (retryDelay / 1000) ++ "s..."))
              listen st in
  let st := setWsConnection
              (fun prev => {| conn_url := conn_url prev; ws := ws prev;
                              connected := connected prev;
                              retryCount := retryCount prev + 1 |}) st in
  connectWebSocket closure wsUrl st.

(** [ws.onerror]; the template prints the event object. *)
Definition onerror (s : Socket) (st : State) : State :=
  let st := clearTimeout (connectionTimeout s) st in
  let st := addWsMessage "error" (Text "Listen WebSocket error: [object Event]") listen st in
  setWsConnection (set_connected false) st.

(** [ws.onmessage], from the point where [normalizeWsData(event.data)]
    settles.  The update of [currentCall] is not represented. *)
Definition onmessage (event_data : JsValue) (st : State) : State :=
  match normalizeWsData B event_data with
  | Fulfilled n =>
      if isJson n && truthy (parsed n)
      then addWsMessage "message" (Parsed (parsed n)) listen st
      else
        match isBinary n with
        | Some true => addWsMessage "raw" (BinaryRef (url n) (size n)) listen st
        | _ =>
            addWsMessage "raw"
              (Parsed (or_else (parsed n)
                         (or_else (JStr (raw n)) (JStr (String_coerce B event_data)))))
              listen st
        end
  | Rejected err =>
      addWsMessage "error"
        (Text ("Failed to parse incoming WS message: " ++ error_to_string err)) listen st
  end.

(** The cleanup of the mount effect. *)
Definition unmount (st : State) : State :=
  stopPollingCall (disconnectWebSockets st).

(** *** Events delivered to the component *)

(** What the browser can deliver once a call has been placed.  A fetch
    started by a polling tick settles at some later time, also after the
    interval was cleared, so [PollReturned] is not tied to a live timer. *)
Inductive Event : Type :=
| PollReturned (closure : WebSocketConnection) (callId : string)
    (result : Promise CallResponse)
| TimerFired (h : positive)
| SocketOpened (w : positive)
| SocketClosed (w : positive) (wasClean : bool) (code : N) (reason : string)
| SocketErrored (w : positive)
| SocketMessage (w : positive) (event_data : JsValue)
| Unmounted.

Definition find_timer (h : positive) (st : State) : option Timer :=
  find (fun t => Pos.eqb (handle t) h) (timers st).

Definition step (e : Event) (st : State) : State :=
  match e with
  | PollReturned closure callId result => poll_tick closure callId result st
  | TimerFired h =>
      match find_timer h st with
      | Some t =>
          match task t with
          | PollTick _ _ => st
          | ConnectionTimeout w =>
              connection_timeout w (with_timers (remove_timer h (timers st)) st)
          | Retry wsUrl closure retryDelay =>
              retry wsUrl closure retryDelay (with_timers (remove_timer h (timers st)) st)
          end
      | None => st
      end
  | SocketOpened w =>
      match find_socket w st with
      | Some s =>
          match readyState s with
          | CONNECTING => onopen s (set_readyState w OPEN st)
          | _ => st
          end
      | None => st
      end
  | SocketClosed w wasClean code reason =>
      match find_socket w st with
      | Some s =>
          match readyState s with
          | CLOSED => st
          | _ => onclose s wasClean code reason (set_readyState w CLOSED st)
          end
      | None => st
      end
  | SocketErrored w =>
      match find_socket w st with
      | Some s => onerror s st
      | None => st
      end
  | SocketMessage w event_data =>
      match find_socket w st with
      | Some s =>
          match readyState s with
          | OPEN => onmessage event_data st
          | _ => st
          end
      | None => st
      end
  | Unmounted => unmount st
  end.

Definition run (events : list Event) (st : State) : State :=
  fold_left (fun st e => step e st) events st.

(** One call session: the component is mounted, one call is placed, and
    events follow. *)
Definition session (result : Promise CallResponse) (events : list Event) : State :=
  run events (call_settled (wsConnection initial) result initial).

End Handlers.

(** *** Observations on a state *)

Definition is_poll_timer (t : Timer) : bool :=
  match task t with PollTick _ _ => true | _ => false end.

Definition is_live (s : Socket) : bool :=
  match readyState s with CONNECTING | OPEN => true | _ => false end.

Definition poller_active (st : State) : bool := existsb is_poll_timer (timers st).

Definition channel_active (st : State) : bool := existsb is_live (sockets st).

(** Replays a record of browser calls, keeping the intervals that are set
    and the sockets that were constructed and not closed by the code. *)
Definition replay_call (live : list positive * list positive) (c : BrowserCall)
  : list positive * list positive :=
  let (intervals, channels) := live in
  match c with
  | SetInterval h _ => (h :: intervals, channels)
  | ClearInterval h => (filter (fun x => negb (Pos.eqb x h)) intervals, channels)
  | NewWebSocket w _ => (intervals, w :: channels)
  | CloseWebSocket w => (intervals, filter (fun x => negb (Pos.eqb x w)) channels)
  | _ => live
  end.

Definition both_live (live : list positive * list positive) : bool :=
  match live with
  | (_ :: _, _ :: _) => true
  | _ => false
  end.

(** No browser call leaves an interval and a socket live together. *)
Fixpoint exclusive_from (live : list positive * list positive) (cs : list BrowserCall)
  : bool :=
  match cs with
  | [] => true
  | c :: rest =>
      let live' := replay_call live c in
      negb (both_live live') && exclusive_from live' rest
  end.

Definition exclusive_calls (cs : list BrowserCall) : bool := exclusive_from ([], []) cs.

(** Position of the first call satisfying [p]. *)
Fixpoint index_of (p : BrowserCall -> bool) (cs : list BrowserCall) : option nat :=
  match cs with
  | [] => None
  | c :: rest => if p c then Some 0 else option_map S (index_of p rest)
  end.

Definition is_ClearInterval (c : BrowserCall) : bool :=
  match c with ClearInterval _ => true | _ => false end.

Definition is_NewWebSocket (c : BrowserCall) : bool :=
  match c with NewWebSocket _ _ => true | _ => false end.

End VapiCallMonitor.

(** ** The webhook store, [vapi-webhook-store.ts] *)

Module WebhookStore.

Record WebhookEvent : Type := {
  id : string;
  receivedAt : string;
  payload : JsValue;
  contentType : option string;
  size : option nat;
  verified : option bool;
  eventType : JsValue
}.

Record Stored : Type := {
  stored_payload : JsValue;
  stored_contentType : option string;
  stored_size : option nat;
  stored_verified : option bool
}.

Definition MAX_EVENTS : nat := 200.

(** [Array.prototype.unshift] and [Array.prototype.pop] on the store,
    whose index 0 is the head of the list. *)
Definition unshift {A : Type} (x : A) (l : list A) : list A := x :: l.

Definition pop {A : Type} (l : list A) : list A := removelast l.

(** [pushWebhookEvent(stored)]: [random_id] is the value of
    [Math.random().toString(36).substring(2, 9)] and [now] that of
    [new Date().toISOString()] at the call.  Returns the new store and the
    event. *)
Definition pushWebhookEvent (random_id now : string) (stored : Stored)
  (store : list WebhookEvent) : list WebhookEvent * WebhookEvent :=
  let payload := stored_payload stored in
  let evt :=
    {| id := random_id;
       receivedAt := now;
       payload := payload;
       contentType := stored_contentType stored;
       size := stored_size stored;
       verified := stored_verified stored;
       eventType :=
         or_else
           (if truthy payload
            then or_else (get payload "type")
                   (or_else (get payload "event") (get payload "eventType"))
            else payload)
           JUndefined |} in
  let store := unshift evt store in
  let store := if MAX_EVENTS <? List.length store then pop store else store in
  (store, evt).


(** The store after a series of pushes, first push first. *)
Fixpoint push_all (pushes : list (string * string * Stored)) (store : list WebhookEvent)
  : list WebhookEvent :=
  match pushes with
  | [] => store
  | (random_id, now, stored) :: rest =>
      push_all rest (fst (pushWebhookEvent random_id now stored store))
  end.

(** [Array.prototype.slice(0, end)] *)
Definition slice_to {A : Type} (finish : Z) (l : list A) : list A :=
  let len := Z.of_nat (List.length l) in
  let k := if (finish <? 0)%Z then Z.max (len + finish) 0 else Z.min finish len in
  firstn (Z.to_nat k) l.

(** [listWebhookEvents(limit = 50, sinceIso?)] for an integer [limit];
    [toISOString s] is the value of [new Date(s).toISOString()], which
    throws on a string that is not a date. *)
Definition listWebhookEvents (toISOString : string -> Completion string)
  (limit : option Z) (sinceIso : option string) (store : list WebhookEvent)
  : Completion (list WebhookEvent) :=
  let limit := match limit with Some n => n | None => 50%Z end in
  let results := slice_to (Z.min limit (Z.of_nat (List.length store))) store in
  match sinceIso with
  | Some iso =>
      if truthy_string iso
      then
        since <- toISOString iso ;;
        Normal (slice_to (Z.min limit (Z.of_nat (List.length results)))
                  (filter (fun e => String.ltb since (receivedAt e)) results))
      else Normal results
  | None => Normal results
  end.

End WebhookStore.

(** ** Phone number helpers, [utils.ts] *)

Module Utils.

(** A character that [/[^\d+]/g] leaves in place: a decimal digit or [+]. *)
Definition is_digit (c : ascii) : bool :=
  let n := nat_of_ascii c in (48 <=? n) && (n <=? 57).

Definition is_plus (c : ascii) : bool := Ascii.eqb c "+"%char.

(** [s.replace(/[^\d+]/g, '')].  The characters outside ASCII are removed
    whichever encoding holds them, none of their code units being a digit
    or [+]. *)
Fixpoint clean (s : string) : string :=
  match s with
  | EmptyString => EmptyString
  | String c rest =>
      if is_digit c || is_plus c then String c (clean rest) else clean rest
  end.

Definition formatPhoneNumber (phoneNumber : string) : string :=
  let cleaned := clean phoneNumber in
  if String.prefix "+" cleaned then cleaned
  else if String.length cleaned =? 10 then "+1" ++ cleaned
  else if (String.length cleaned =? 11) && String.prefix "1" cleaned then "+" ++ cleaned
  else "+1" ++ cleaned.

Definition validateE164PhoneNumber (phoneNumber : string) : string :=
  let cleaned := clean phoneNumber in
  if negb (String.prefix "+" cleaned)
  then
    if String.length cleaned =? 10 then "+1" ++ cleaned
    else if (String.length cleaned =? 11) && String.prefix "1" cleaned then "+" ++ cleaned
    else "+1" ++ cleaned
  else cleaned.

End Utils.

(** ** A concrete platform

    An executable instance of [Builtins], used to run the model on concrete
    inputs.  [JSON_parse] covers the JSON texts built from [null], [true],
    [false], integers, strings without escapes, arrays and objects; the
    decoder is exact on ASCII bytes. *)

Module Reference.

Local Open Scope char_scope.

Definition dq : ascii := ascii_of_nat 34.
Definition backslash : ascii := ascii_of_nat 92.

Definition is_ws (c : ascii) : bool :=
  let n := nat_of_ascii c in
  ((n =? 32) || (n =? 9) || (n =? 10) || (n =? 13))%nat.

Fixpoint skip_ws (l : list ascii) : list ascii :=
  match l with
  | c :: rest => if is_ws c then skip_ws rest else l
  | [] => []
  end.

Definition digit_value (c : ascii) : option Z :=
  let n := nat_of_ascii c in
  if ((48 <=? n) && (n <=? 57))%nat then Some (Z.of_nat (n - 48)) else None.

Fixpoint take_digits (l : list ascii) (acc : Z) : Z * list ascii :=
  match l with
  | c :: rest =>
      match digit_value c with
      | Some d => take_digits rest (10 * acc + d)%Z
      | None => (acc, l)
      end
  | [] => (acc, [])
  end.

Definition starts_with_digit (l : list ascii) : bool :=
  match l with
  | c :: _ => match digit_value c with Some _ => true | None => false end
  | [] => false
  end.

(** The characters of a string literal after its opening quote. *)
Fixpoint take_string (l : list ascii) : option (string * list ascii) :=
  match l with
  | [] => None
  | c :: rest =>
      if Ascii.eqb c dq then Some (EmptyString, rest)
      else if Ascii.eqb c backslash then None
      else
        match take_string rest with
        | Some (s, rest') => Some (String c s, rest')
        | None => None
        end
  end.

Fixpoint parse_value (fuel : nat) (l : list ascii) {struct fuel}
  : option (JsValue * list ascii) :=
  match fuel with
  | O => None
  | S fuel =>
      match skip_ws l with
      | "n" :: "u" :: "l" :: "l" :: rest => Some (JNull, rest)
      | "t" :: "r" :: "u" :: "e" :: rest => Some (JBool true, rest)
      | "f" :: "a" :: "l" :: "s" :: "e" :: rest => Some (JBool false, rest)
      | "[" :: rest =>
          match skip_ws rest with
          | "]" :: rest' => Some (JArr [], rest')
          | _ =>
              match parse_elements fuel rest with
              | Some (vs, rest') => Some (JArr vs, rest')
              | None => None
              end
          end
      | "{" :: rest =>
          match skip_ws rest with
          | "}" :: rest' => Some (JObj [], rest')
          | _ =>
              match parse_members fuel rest with
              | Some (fs, rest') => Some (JObj fs, rest')
              | None => None
              end
          end
      | "-" :: rest =>
          if starts_with_digit rest
          then let (z, rest') := take_digits rest 0 in Some (JNum (- z), rest')
          else None
      | c :: rest =>
          if Ascii.eqb c dq
          then
            match take_string rest with
            | Some (s, rest') => Some (JStr s, rest')
            | None => None
            end
          else if starts_with_digit (c :: rest)
          then let (z, rest') := take_digits (c :: rest) 0 in Some (JNum z, rest')
          else None
      | [] => None
      end
  end

with parse_elements (fuel : nat) (l : list ascii) {struct fuel}
  : option (list JsValue * list ascii) :=
  match fuel with
  | O => None
  | S fuel =>
      match parse_value fuel l with
      | Some (v, rest) =>
          match skip_ws rest with
          | "," :: rest' =>
              match parse_elements fuel rest' with
              | Some (vs, rest'') => Some (v :: vs, rest'')
              | None => None
              end
          | "]" :: rest' => Some ([v], rest')
          | _ => None
          end
      | None => None
      end
  end

with parse_members (fuel : nat) (l : list ascii) {struct fuel}
  : option (list (string * JsValue) * list ascii) :=
  match fuel with
  | O => None
  | S fuel =>
      match skip_ws l with
      | c :: rest =>
          if Ascii.eqb c dq
          then
            match take_string rest with
            | Some (key, rest1) =>
                match skip_ws rest1 with
                | ":" :: rest2 =>
                    match parse_value fuel rest2 with
                    | Some (v, rest3) =>
                        match skip_ws rest3 with
                        | "," :: rest4 =>
                            match parse_members fuel rest4 with
                            | Some (fs, rest5) => Some ((key, v) :: fs, rest5)
                            | None => None
                            end
                        | "}" :: rest4 => Some ([(key, v)], rest4)
                        | _ => None
                        end
                    | None => None
                    end
                | _ => None
                end
            | None => None
            end
          else None
      | [] => None
      end
  end.

Local Close Scope char_scope.

Definition parse (s : string) : Completion JsValue :=
  let l := list_ascii_of_string s in
  match parse_value (2 * List.length l + 2) l with
  | Some (v, rest) =>
      match skip_ws rest with
      | [] => Normal v
      | _ => Throw (SyntaxError "Unexpected non-whitespace character after JSON")
      end
  | None => Throw (SyntaxError "Unexpected token in JSON")
  end.

Definition string_of_Z (z : Z) : string :=
  NilZero.string_of_int (Z.to_int z).

Definition quote (s : string) : string :=
  String dq (s ++ String dq EmptyString).

Fixpoint join (sep : string) (l : list string) : string :=
  match l with
  | [] => ""
  | [x] => x
  | x :: rest => x ++ sep ++ join sep rest
  end.

(** Collects the results of a list of completions, stopping at the first
    throw. *)
Fixpoint sequence {A : Type} (l : list (Completion A)) : Completion (list A) :=
  match l with
  | [] => Normal []
  | c :: rest =>
      match c, sequence rest with
      | Normal a, Normal l' => Normal (a :: l')
      | Throw e, _ => Throw e
      | _, Throw e => Throw e
      end
  end.

(** Serialisation of a value nested in an array or object; [None] is a
    value that [JSON.stringify] passes over. *)
Fixpoint stringify_inner (v : JsValue) : Completion (option string) :=
  match v with
  | JUndefined | JSymbol _ | JFunction _ => Normal None
  | JNull => Normal (Some "null")
  | JBool true => Normal (Some "true")
  | JBool false => Normal (Some "false")
  | JNum z => Normal (Some (string_of_Z z))
  | JBigInt _ => Throw (TypeError "Do not know how to serialize a BigInt")
  | JStr s => Normal (Some (quote s))
  | JArr elements =>
      match sequence (map stringify_inner elements) with
      | Normal parts =>
          Normal (Some ("[" ++ join ","
                          (map (fun p => match p with Some s => s | None => "null" end) parts)
                        ++ "]"))
      | Throw e => Throw e
      end
  | JObj fields =>
      match sequence (map (fun kv => stringify_inner (snd kv)) fields) with
      | Normal parts =>
          Normal (Some ("{" ++ join ","
                          (flat_map
                             (fun kp => match snd kp with
                                        | Some s => [quote (fst kp) ++ ":" ++ s]
                                        | None => []
                                        end)
                             (combine (map fst fields) parts))
                        ++ "}"))
      | Throw e => Throw e
      end
  | JBlob _ | JArrayBuffer _ => Normal (Some "{}")
  end.

(** On the values for which [JSON.stringify] yields [undefined] the text
    [undefined] stands in for it. *)
Definition stringify (v : JsValue) : Completion string :=
  match stringify_inner v with
  | Normal (Some s) => Normal s
  | Normal None => Normal "undefined"
  | Throw e => Throw e
  end.

Definition coerce (v : JsValue) : string :=
  match v with
  | JUndefined => "undefined"
  | JNull => "null"
  | JBool true => "true"
  | JBool false => "false"
  | JNum z => string_of_Z z
  | JBigInt z => string_of_Z z
  | JStr s => s
  | JSymbol d => "Symbol(" ++ d ++ ")"
  | JFunction src => src
  | JArr _ => "[object Array]"
  | JObj _ => "[object Object]"
  | JBlob _ => "[object Blob]"
  | JArrayBuffer _ => "[object ArrayBuffer]"
  end.

Definition decode (bytes : list byte) : string :=
  string_of_list_ascii
    (map (fun b => if Byte.to_nat b <? 128 then ascii_of_byte b else "?"%char) bytes).

Definition browser : Builtins :=
  {| JSON_parse := parse;
     JSON_stringify := stringify;
     String_coerce := coerce;
     TextDecoder_decode := decode;
     Blob_text := fun bytes => Fulfilled (decode bytes);
     Blob_arrayBuffer := fun bytes => Fulfilled bytes;
     URL_createObjectURL := fun bytes => "blob:" ++ string_of_nat (List.length bytes) |}.

(** A socket constructor that accepts the [ws:] and [wss:] schemes. *)
Definition new_WebSocket (wsUrl : string) : Completion unit :=
  if String.prefix "ws://" wsUrl || String.prefix "wss://" wsUrl
  then Normal tt
  else Throw (SyntaxError ("The URL '" ++ wsUrl ++ "' is invalid.")).

End Reference.

(** * Vocabulary of the properties *)

Import VapiCallMonitor.

(** ** Servers and values for concrete runs *)

(** Servers for concrete runs. *)
Definition offline (_ : string) (_ : VapiService.RequestInit)
  : Promise VapiService.Response :=
  Rejected (TypeError "Failed to fetch").

Definition answering (code : nat) (ok : bool) (text : string) (decoded : JsValue)
  (_ : string) (_ : VapiService.RequestInit) : Promise VapiService.Response :=
  Fulfilled {| VapiService.ok := ok; VapiService.status := code;
               VapiService.text := Fulfilled text;
               VapiService.json := Fulfilled decoded |}.

(** Five bytes, three of them printable: [A], [B], [C], [0x00], [0x01]. *)
Definition three_of_five : list byte := [x41; x42; x43; x00; x01].

(** Four bytes, three of them printable: the text [[1]] and [0x00]. *)
Definition three_of_four : list byte := [x5b; x31; x5d; x00].

(** The [n]-th push of a series, for concrete runs. *)
Definition numbered_push (n : nat) : string * string * WebhookStore.Stored :=
  (string_of_nat n, string_of_nat n,
   {| WebhookStore.stored_payload := JObj [("type", JStr "status-update")];
      WebhookStore.stored_contentType := Some "application/json";
      WebhookStore.stored_size := Some n;
      WebhookStore.stored_verified := None |}).

(** Calls as the platform reports them, for concrete runs. *)
Definition queued_call : VapiCallMonitor.CallResponse :=
  {| VapiCallMonitor.id := "call_1"; VapiCallMonitor.status := "queued";
     VapiCallMonitor.monitor := None |}.


Definition monitored_call : VapiCallMonitor.CallResponse :=
  {| VapiCallMonitor.id := "call_1"; VapiCallMonitor.status := "in-progress";
     VapiCallMonitor.monitor :=
       Some {| VapiCallMonitor.listenUrl := "wss://listen";
               VapiCallMonitor.controlUrl := "" |} |}.

(** ** The sample of a byte buffer *)

(** The number of sampled bytes, [Math.min(512, bytes.length)], and the
    number of printable ones among them. *)
Definition sample_size (bytes : list byte) : nat := Nat.min 512 (List.length bytes).

Definition sample_printable (bytes : list byte) : nat :=
  count_printable (sample_size bytes) bytes 0.

(** [ratio > 0.6] computed in binary64 against the exact comparison
    [3 * n < 5 * p], for every sample of at most 512 bytes. *)
Definition ratio_test_agrees (n p : nat) : bool :=
  Bool.eqb (PrimFloat.ltb 0.6%float
              (PrimFloat.div (number_of_nat p) (number_of_nat n)))
           (3 * Z.of_nat n <? 5 * Z.of_nat p)%Z.

(** The two outcomes of the [ArrayBuffer] branch. *)
Definition decoded_as_text (B : Builtins) (bytes : list byte) : Prop :=
  normalizeWsData B (JArrayBuffer bytes)
  = async (parse_or_text B (TextDecoder_decode B bytes)).

Definition classified_as_binary (B : Builtins) (bytes : list byte) : Prop :=
  normalizeWsData B (JArrayBuffer bytes)
  = Fulfilled (binary_entry (URL_createObjectURL B bytes) (List.length bytes)).

(** The body of [normalizeWsData] completes abruptly in these cases. *)
Definition internal_step_fails (B : Builtins) (data : JsValue) : Prop :=
  match data with
  | JStr _ | JArrayBuffer _ => False
  | JBlob bytes =>
      match Blob_text B (firstn 256 bytes) with
      | Rejected _ => True
      | Fulfilled text =>
          match JSON_parse B text, Blob_arrayBuffer B bytes with
          | Throw _, Rejected _ => True
          | _, _ => False
          end
      end
  | _ =>
      match typeof data, JSON_stringify B data with
      | TObject, Throw _ => True
      | _, _ => False
      end
  end.

(** ** The webhook store and the message log *)

(** The event a push builds does not depend on the store. *)
Definition event_of (push : string * string * WebhookStore.Stored)
  : WebhookStore.WebhookEvent :=
  let '(random_id, now, stored) := push in
  snd (WebhookStore.pushWebhookEvent random_id now stored []).

(** The last [n] elements of a list, in order. *)
Definition keep_last (A : Type) (n : nat) (l : list A) : list A :=
  skipn (List.length l - n) l.

(** [st'] has the log of [st], or the log of [st] with further entries
    pushed through the cap. *)
Definition appended (st st' : State) : Prop :=
  wsMessages st' = wsMessages st
  \/ exists later, wsMessages st' = slice (-100) (wsMessages st ++ later).

(** A series of [addWsMessage] calls, first call first, and the entries
    they build when the clock stands at [c]. *)
Fixpoint add_all (entries : list (string * MessageData * Source)) (st : State) : State :=
  match entries with
  | [] => st
  | (type, data, source) :: rest => add_all rest (addWsMessage type data source st)
  end.

Fixpoint stamped (c : nat) (entries : list (string * MessageData * Source))
  : list WebSocketMessage :=
  match entries with
  | [] => []
  | (type, data, source) :: rest =>
      {| type := type; data := data; timestamp := c; source := source |}
      :: stamped (S c) rest
  end.

(** A full log, for concrete runs. *)
Definition hundred_frames : VapiCallMonitor.State :=
  add_all (repeat ("raw", VapiCallMonitor.Text "frame", VapiCallMonitor.listen) 100)
    VapiCallMonitor.initial.

(** ** Poller and channel *)


(** The component after a call was placed whose response has no monitor. *)
Definition polling_session : VapiCallMonitor.State :=
  VapiCallMonitor.session Reference.browser Reference.new_WebSocket
    (Fulfilled queued_call) [].

(** No interval of a poller is registered. *)
Definition calm (st : State) : Prop := existsb is_poll_timer (timers st) = false.

(** The ref of the poller is empty. *)
Definition idle (st : State) : Prop := pollRef st = None.

(** The poller is off: its ref is empty and no interval of it is left. *)
Definition quiet (st : State) : Prop := pollRef st = None /\ calm st.

(** The poller [h] is on and no socket was made. *)
Definition polling (h : positive) (st : State) : Prop :=
  pollRef st = Some h
  /\ sockets st = []
  /\ listenWsRef st = None
  /\ forallb (fun t => is_poll_timer t && Pos.eqb (handle t) h) (timers st) = true.

Definition exclusive (st : State) : Prop := quiet st \/ exists h, polling h st.

(** The browser calls of [disconnectWebSockets]. *)
Definition closing (st : State) : list BrowserCall :=
  match listenWsRef st with
  | Some w => [CloseWebSocket w]
  | None => []
  end.

(** The session in which the second tick of the poller finds a listen URL. *)
Definition switching_session : VapiCallMonitor.State :=
  VapiCallMonitor.session Reference.browser Reference.new_WebSocket
    (Fulfilled queued_call)
    [VapiCallMonitor.PollReturned (VapiCallMonitor.wsConnection VapiCallMonitor.initial)
       "call_1" (Fulfilled queued_call);
     VapiCallMonitor.PollReturned (VapiCallMonitor.wsConnection VapiCallMonitor.initial)
       "call_1" (Fulfilled monitored_call)].

(** The component after a call was placed whose response carries a
    listen URL. *)
Definition listening_session : VapiCallMonitor.State :=
  VapiCallMonitor.session Reference.browser Reference.new_WebSocket
    (Fulfilled monitored_call) [].

(** The socket [w] closes with code 1006 and the retry timer [h] fires. *)
Definition drop_and_retry (w h : positive) : list VapiCallMonitor.Event :=
  [VapiCallMonitor.SocketClosed w false 1006 "";
   VapiCallMonitor.TimerFired h].

(** Three failed retries, and the close of the socket the third one made. *)
Definition four_drops : list VapiCallMonitor.Event :=
  drop_and_retry 1 3 ++ drop_and_retry 4 6 ++ drop_and_retry 7 9
  ++ [VapiCallMonitor.SocketClosed 10 false 1006 ""].

(** The socket in the ref is the last one made, it is connecting, and its
    handlers were made in a render whose [wsConnection] is [c]. *)
Definition awaiting_open (c : WebSocketConnection) (u : string) (st : State) : Prop :=
  exists w old s,
    listenWsRef st = Some w
    /\ sockets st = (old ++ [s])%list
    /\ socket_id s = w /\ readyState s = CONNECTING /\ seen s = c /\ socket_url s = u
    /\ Forall (fun o => socket_id o <> w) old
    /\ Forall (fun o => (socket_id o < next_handle st)%positive) (sockets st)
    /\ Forall (fun t => (handle t < next_handle st)%positive) (timers st).

(** The socket in the ref closes unexpectedly and the retry timer, which
    got the next free handle, fires. *)
Definition drop_once (B : Builtins) (WebSocket_new : string -> Completion unit)
  (st : State) : State :=
  match listenWsRef st with
  | Some w =>
      run B WebSocket_new [SocketClosed w false 1006 ""; TimerFired (next_handle st)] st
  | None => st
  end.

Fixpoint drops (B : Builtins) (WebSocket_new : string -> Completion unit)
  (n : nat) (st : State) : State :=
  match n with
  | O => st
  | S n' => drop_once B WebSocket_new (drops B WebSocket_new n' st)
  end.

(** The browser calls of one such round that starts with the free handle
    [h]: the connection timeout [t] is cleared, the retry is scheduled
    [retryDelay] ms ahead, and when it fires a socket is made for [u]. *)
Definition retry_round (t h : positive) (retryDelay : N) (u : string) : list BrowserCall :=
  [ClearTimeout t;
   SetTimeout h retryDelay;
   NewWebSocket (Pos.succ h) u;
   SetTimeout (Pos.succ (Pos.succ h)) 10000].

(** ** Requests and their descriptions *)

(** The options [request] hands to [fetch]. *)
Definition request_config (apiKey : string) (options : VapiService.RequestInit)
  : VapiService.RequestInit :=
  {| VapiService.method := VapiService.method options;
     VapiService.headers :=
       [("Authorization", "Bearer " ++ apiKey); ("Content-Type", "application/json")]
       ++ VapiService.headers options;
     VapiService.body := VapiService.body options |}.

(** [config.body ? JSON.parse(config.body) : undefined], evaluated for the
    log record before the request is sent. *)
Definition body_preview (B : Builtins) (options : VapiService.RequestInit)
  : Completion JsValue :=
  match VapiService.body options with
  | Some b => if truthy_string b then JSON_parse B b else Normal JUndefined
  | None => Normal JUndefined
  end.

(** [undefined] and [null], the values whose properties cannot be read. *)
Definition nullish (v : JsValue) : bool :=
  match v with JUndefined | JNull => true | _ => false end.

(** [phone.credentialId === credentialId] *)
Definition has_credential (credentialId : string) (phone : JsValue) : bool :=
  is_string credentialId (get phone "credentialId").

(** A platform that refuses every [PATCH] with 404 and answers every other
    request with the call [call_1]. *)
Definition patch_refused (_ : string) (config : VapiService.RequestInit)
  : Promise VapiService.Response :=
  match VapiService.method config with
  | Some "PATCH" =>
      Fulfilled {| VapiService.ok := false; VapiService.status := 404;
                   VapiService.text := Fulfilled "Not Found";
                   VapiService.json := Fulfilled JNull |}
  | _ =>
      Fulfilled {| VapiService.ok := true; VapiService.status := 201;
                   VapiService.text := Fulfilled "";
                   VapiService.json := Fulfilled (JObj [("id", JStr "call_1")]) |}
  end.

(** An assistant whose plan enables listening and control. *)
Definition monitored_assistant : JsValue :=
  JObj [("id", JStr "asst_1"); ("name", JStr "Front desk");
        ("monitorPlan",
         JObj [("listenEnabled", JBool true); ("controlEnabled", JBool true)])].

(** Phone numbers of two credentials, and a list with a [null] entry. *)
Definition two_phones : list JsValue :=
  [JObj [("id", JStr "pn_1"); ("credentialId", JStr "cred_1")];
   JObj [("id", JStr "pn_2"); ("credentialId", JStr "cred_2")]].

(** ** Phone numbers *)

Fixpoint all_chars (p : ascii -> bool) (s : string) : bool :=
  match s with
  | EmptyString => true
  | String c rest => p c && all_chars p rest
  end.

(** The decimal digits of a string, in order. *)
Fixpoint digits (s : string) : string :=
  match s with
  | EmptyString => EmptyString
  | String c rest => if Utils.is_digit c then String c (digits rest) else digits rest
  end.

Definition dialable (c : ascii) : bool := Utils.is_digit c || Utils.is_plus c.

(** ** Listing webhook events *)

(** A clock for concrete runs: it accepts the timestamps that start with
    a digit and returns them as they are. *)
Definition iso_or_invalid (s : string) : Completion string :=
  match s with
  | String c _ => if Utils.is_digit c then Normal s
                  else Throw (mkError "RangeError" "Invalid time value")
  | EmptyString => Throw (mkError "RangeError" "Invalid time value")
  end.

(** A store after three pushes, received at ["0"], ["1"] and ["2"]. *)
Definition three_events : list WebhookStore.WebhookEvent :=
  WebhookStore.push_all (map numbered_push (seq 0 3)) [].

(** ** Handlers of the call monitor *)

(** The timers left when the poller in the ref, if any, is cleared. *)
Definition without_poller (st : State) : list Timer :=
  match pollRef st with
  | Some h => remove_timer h (timers st)
  | None => timers st
  end.

(** The browser calls by which [connectWebSocket] opens [wsUrl] in [st]. *)
Definition opening (WebSocket_new : string -> Completion unit) (wsUrl : string)
  (st : State) : list BrowserCall :=
  if truthy_string wsUrl
  then
    match WebSocket_new wsUrl with
    | Normal _ =>
        [NewWebSocket (next_handle st) wsUrl; SetTimeout (Pos.succ (next_handle st)) 10000]
    | Throw _ => []
    end
  else [].

(** The log entry [addWsMessage] builds in [st]. *)
Definition entry (st : State) (type : string) (data : MessageData) (source : Source)
  : WebSocketMessage :=
  {| type := type; data := data; timestamp := clock st; source := source |}.

(** Everything but the log and the clock is the same in both states. *)
Definition same_machinery (st st' : State) : Prop :=
  wsConnection st' = wsConnection st
  /\ listenWsRef st' = listenWsRef st
  /\ pollRef st' = pollRef st
  /\ sockets st' = sockets st
  /\ timers st' = timers st
  /\ next_handle st' = next_handle st
  /\ calls st' = calls st.

(** The socket of [listening_session]. *)
Definition first_socket : Socket :=
  {| socket_id := 1; socket_url := "wss://listen"; readyState := CONNECTING;
     seen := wsConnection initial; connectionTimeout := 2 |}.

Definition no_question (s : string) : bool :=
  all_chars (fun c => negb (Ascii.eqb c "?"%char)) s.


(** * Properties *)

(** ** The API client *)

Section ClientFacts.

Import VapiService.

Variable B : Builtins.
Variable baseUrl apiKey : string.
Variable fetch : string -> RequestInit -> Promise Response.

(** X2: a request for which the server answers with a status outside
    2xx is rejected with the typed HTTP error. *)
Lemma request_http_error (endpoint : string) (options : RequestInit)
  (response : Response) (errorText : string) :
  match body options with
  | Some b => truthy_string b = false \/ exists v, JSON_parse B b = Normal v
  | None => True
  end ->
  fetch (baseUrl ++ endpoint)
    {| method := method options;
       headers := [("Authorization", "Bearer " ++ apiKey);
                   ("Content-Type", "application/json")] ++ headers options;
       body := body options |} = Fulfilled response ->
  ok response = false ->
  text response = Fulfilled errorText ->
  request B baseUrl apiKey fetch endpoint options
  = Rejected (Error ("HTTP " ++ string_of_nat (status response) ++ ": " ++ errorText)).
Proof.
  intros Hbody Hfetch Hok Htext.
  unfold VapiService.request.
  rewrite Hfetch. cbn [await bind try_catch]. rewrite Hok, Htext. cbn.
  destruct (body options) as [b|]; cbn; [|reflexivity].
  destruct Hbody as [Hb | [v Hv]].
  - rewrite Hb. reflexivity.
  - destruct (truthy_string b); [rewrite Hv|]; reflexivity.
Qed.

(** The promise of [updateCredential] is the promise of the PATCH request
    whenever the payload can be serialised. *)
Lemma updateCredential_is_request (credentialId : string) (credentialData : JsValue)
  (payload : string) :
  JSON_stringify B credentialData = Normal payload ->
  updateCredential B baseUrl apiKey fetch credentialId credentialData
  = request B baseUrl apiKey fetch ("/credential/" ++ credentialId)
      {| method := Some "PATCH"; headers := []; body := Some payload |}.
Proof.
  intros H. unfold updateCredential. rewrite H. reflexivity.
Qed.

(** The handler of [updateCredential] is reached exactly when
    serialising the payload throws. *)
Lemma updateCredential_unsupported_on_throw (credentialId : string) (credentialData : JsValue) :
  (exists e, JSON_stringify B credentialData = Throw e) ->
  updateCredential B baseUrl apiKey fetch credentialId credentialData
  = Rejected unsupported_update.
Proof.
  intros [e H]. unfold updateCredential. rewrite H. reflexivity.
Qed.

(** C9: each of [getPhoneNumbers], [getAssistants] and [getCredentials]
    is fulfilled with the empty list when its request is rejected and when
    the decoded response is not an array; the error does not reach the
    caller. *)
Theorem list_operations_default_to_empty :
  (forall e, request B baseUrl apiKey fetch "/phone-number" no_options = Rejected e ->
             getPhoneNumbers B baseUrl apiKey fetch = Fulfilled (JArr []))
  /\ (forall v, request B baseUrl apiKey fetch "/phone-number" no_options = Fulfilled v ->
                Array_isArray v = false ->
                getPhoneNumbers B baseUrl apiKey fetch = Fulfilled (JArr []))
  /\ (forall e, request B baseUrl apiKey fetch "/assistant" no_options = Rejected e ->
                getAssistants B baseUrl apiKey fetch = Fulfilled (JArr []))
  /\ (forall v, request B baseUrl apiKey fetch "/assistant" no_options = Fulfilled v ->
                Array_isArray v = false ->
                getAssistants B baseUrl apiKey fetch = Fulfilled (JArr []))
  /\ (forall e, request B baseUrl apiKey fetch "/credential" no_options = Rejected e ->
                getCredentials B baseUrl apiKey fetch = Fulfilled (JArr []))
  /\ (forall v, request B baseUrl apiKey fetch "/credential" no_options = Fulfilled v ->
                Array_isArray v = false ->
                getCredentials B baseUrl apiKey fetch = Fulfilled (JArr [])).
Proof.
  unfold getPhoneNumbers, getAssistants, getCredentials, list_or_empty.
  repeat split; intros x H; try intros Harr;
    rewrite H; cbn; try rewrite Harr; reflexivity.
Qed.

End ClientFacts.

Lemma list_operations_default_to_empty_witness :
  VapiService.getPhoneNumbers Reference.browser "https://api.vapi.ai" "key" offline
  = Fulfilled (JArr [])
  /\ VapiService.getAssistants Reference.browser "https://api.vapi.ai" "key"
       (answering 200 true "" (JObj [("error", JStr "none")]))
     = Fulfilled (JArr [])
  /\ VapiService.getCredentials Reference.browser "https://api.vapi.ai" "key"
       (answering 500 false "Internal Server Error" JNull)
     = Fulfilled (JArr []).
Proof.
  split; [|split].
  - apply (proj1 (list_operations_default_to_empty Reference.browser
                    "https://api.vapi.ai" "key" offline))
      with (e := TypeError "Failed to fetch").
    reflexivity.
  - apply (proj1 (proj2 (proj2 (proj2 (list_operations_default_to_empty
             Reference.browser "https://api.vapi.ai" "key"
             (answering 200 true "" (JObj [("error", JStr "none")])))))))
      with (v := JObj [("error", JStr "none")]).
    + reflexivity.
    + reflexivity.
  - apply (proj1 (proj2 (proj2 (proj2 (proj2 (list_operations_default_to_empty
             Reference.browser "https://api.vapi.ai" "key"
             (answering 500 false "Internal Server Error" JNull)))))))
      with (e := Error "HTTP 500: Internal Server Error").
    reflexivity.
Defined.

(** C1: at a credential whose PATCH the platform answers with 404,
    [updateCredential] is rejected with the HTTP error of the request and
    not with the delete-and-recreate error; the promise is returned from
    the [try] block without being awaited. *)
Theorem updateCredential_rejects_with_http_error :
  let credentialData := JObj [("name", JStr "trunk")] in
  let server := answering 404 false "Not Found" JNull in
  VapiService.updateCredential Reference.browser "https://api.vapi.ai" "key" server
    "cred_1" credentialData
  = Rejected (Error "HTTP 404: Not Found")
  /\ VapiService.updateCredential Reference.browser "https://api.vapi.ai" "key" server
       "cred_1" credentialData
     <> Rejected VapiService.unsupported_update.
Proof.
  cbv zeta. split.
  - vm_compute. reflexivity.
  - vm_compute. discriminate.
Qed.

(** ** The event normaliser *)

Section NormalizerFacts.

Import VapiCallMonitor.

Lemma forallb_seq_spec (f : nat -> bool) (a len : nat) :
  forallb f (seq a len) = true -> forall x, a <= x < a + len -> f x = true.
Proof.
  intros H x Hx. rewrite forallb_forall in H. apply H. apply in_seq. exact Hx.
Qed.

(** The table of all samples: [n] bytes of which [p] are printable. *)
Lemma ratio_table_ok :
  forallb (fun n => forallb (ratio_test_agrees n) (seq 0 (S n))) (seq 1 512) = true.
Proof. vm_compute. reflexivity. Qed.

Lemma ratio_test_exact (n p : nat) :
  1 <= n <= 512 -> p <= n ->
  PrimFloat.ltb 0.6%float (PrimFloat.div (number_of_nat p) (number_of_nat n))
  = (3 * n <? 5 * p).
Proof.
  intros Hn Hp.
  assert (T : ratio_test_agrees n p = true).
  { apply forallb_seq_spec with (a := 0) (len := S n); [|lia].
    apply (@forallb_seq_spec
             (fun n => forallb (ratio_test_agrees n) (seq 0 (S n))) 1 512 ratio_table_ok).
    lia. }
  unfold ratio_test_agrees in T.
  apply Bool.eqb_prop in T. rewrite T.
  destruct (Z.ltb_spec (3 * Z.of_nat n) (5 * Z.of_nat p));
    destruct (Nat.ltb_spec (3 * n) (5 * p)); try reflexivity; lia.
Qed.

Lemma count_printable_bound (limit : nat) (bytes : list byte) (printable : nat) :
  count_printable limit bytes printable <= printable + Nat.min limit (List.length bytes).
Proof.
  revert bytes printable.
  induction limit as [|limit IH]; intros [|b rest] printable; cbn [count_printable];
    try (cbn; lia).
  specialize (IH rest (if is_printable b then S printable else printable)).
  cbn [List.length]. destruct (is_printable b); lia.
Qed.

Lemma sample_printable_le (bytes : list byte) :
  sample_printable bytes <= sample_size bytes.
Proof.
  unfold sample_printable.
  pose proof (count_printable_bound (sample_size bytes) bytes 0) as H.
  unfold sample_size in *. lia.
Qed.

(** The binary64 test of the source decides "strictly more than three
    fifths of the sample is printable". *)
Lemma looks_like_text_exact (bytes : list byte) :
  looks_like_text bytes = (3 * sample_size bytes <? 5 * sample_printable bytes).
Proof.
  unfold looks_like_text, printable_ratio.
  fold (sample_size bytes). fold (sample_printable bytes).
  pose proof (sample_printable_le bytes) as Hle.
  destruct bytes as [|b rest].
  - reflexivity.
  - assert (Hden : Nat.min 512 (length_or_one (b :: rest)) = sample_size (b :: rest)).
    { unfold length_or_one, sample_size. reflexivity. }
    rewrite Hden.
    apply ratio_test_exact; [|exact Hle].
    unfold sample_size. cbn [List.length]. lia.
Qed.

Variable B : Builtins.

(** A body guarded by a handler that returns a value always fulfils. *)
Lemma async_try_catch_total (A : Type) (c : Completion A) (u : A) :
  async (try_catch c (fun _ => Normal u))
  = Fulfilled (match c with Normal a => a | Throw _ => u end).
Proof. destruct c; reflexivity. Qed.

Lemma parse_or_text_normal (t : string) :
  parse_or_text B t
  = Normal (match JSON_parse B t with
            | Normal v => plain v true t
            | Throw _ => plain (JStr t) false t
            end).
Proof.
  unfold parse_or_text. destruct (JSON_parse B t); reflexivity.
Qed.

(** C3: a string that [JSON.parse] accepts is returned with
    [isJson = true], the parsed value and the input as [raw]; a string it
    rejects is returned as it is with [isJson = false]. *)
Theorem normalizeWsData_string (s : string) :
  (forall v, JSON_parse B s = Normal v ->
     normalizeWsData B (JStr s)
     = Fulfilled {| parsed := v; isJson := true; raw := s;
                    isBinary := None; url := None; size := None |})
  /\ (forall e, JSON_parse B s = Throw e ->
        normalizeWsData B (JStr s)
        = Fulfilled {| parsed := JStr s; isJson := false; raw := s;
                       isBinary := None; url := None; size := None |}).
Proof.
  split; intros x Hx; unfold normalizeWsData;
    rewrite parse_or_text_normal, Hx; reflexivity.
Qed.

(** C4, amended: a buffer whose sample of the first [min(512, length)]
    bytes is strictly more than 60% printable is decoded as text and
    parsed as JSON, with the decoded text as the result when parsing
    fails; every other buffer, the empty one included, is classified as
    binary with [isBinary], its byte length and an object URL. *)
Theorem normalizeWsData_buffer (bytes : list byte) :
  (3 * sample_size bytes < 5 * sample_printable bytes -> decoded_as_text B bytes)
  /\ (5 * sample_printable bytes <= 3 * sample_size bytes -> classified_as_binary B bytes).
Proof.
  unfold decoded_as_text, classified_as_binary, normalizeWsData.
  rewrite looks_like_text_exact.
  split; intros H.
  - apply Nat.ltb_lt in H. rewrite H.
    rewrite parse_or_text_normal. reflexivity.
  - destruct (Nat.ltb_spec (3 * sample_size bytes) (5 * sample_printable bytes)) as [L|L];
      [lia | reflexivity].
Qed.

(** C10: [normalizeWsData] is fulfilled with a record for every input
    and every behaviour of the built-ins, and the record is the
    [<unreadable binary>] placeholder with [isJson = false] when an
    internal step fails. *)
Theorem normalizeWsData_total (data : JsValue) :
  (exists n, normalizeWsData B data = Fulfilled n)
  /\ (internal_step_fails B data ->
      normalizeWsData B data
      = Fulfilled {| parsed := JStr "<unreadable binary>"; isJson := false; raw := "";
                     isBinary := None; url := None; size := None |}).
Proof.
  split.
  - unfold normalizeWsData. rewrite async_try_catch_total. eexists. reflexivity.
  - unfold normalizeWsData, internal_step_fails.
    destruct data; cbn [typeof]; try contradiction;
      try (destruct (JSON_stringify B _); [contradiction | reflexivity]).
    destruct (Blob_text B (firstn 256 bytes)) as [text|e]; cbn; [|reflexivity].
    destruct (JSON_parse B text); [contradiction|].
    destruct (Blob_arrayBuffer B bytes); [contradiction | reflexivity].
Qed.

End NormalizerFacts.

Lemma normalizeWsData_string_witness :
  VapiCallMonitor.normalizeWsData Reference.browser (JStr "[1, true, null]")
  = Fulfilled (VapiCallMonitor.plain (JArr [JNum 1; JBool true; JNull]) true
                 "[1, true, null]")
  /\ VapiCallMonitor.normalizeWsData Reference.browser (JStr "call ended")
     = Fulfilled (VapiCallMonitor.plain (JStr "call ended") false "call ended").
Proof.
  split.
  - apply (proj1 (normalizeWsData_string Reference.browser "[1, true, null]")).
    reflexivity.
  - apply (proj2 (normalizeWsData_string Reference.browser "call ended"))
      with (e := SyntaxError "Unexpected token in JSON").
    reflexivity.
Defined.

(** C4 as stated fails: a sample that is exactly 60% printable meets
    "at least 60%", yet the buffer is classified as binary, not decoded. *)
Lemma normalizeWsData_buffer_at_sixty_percent :
  3 * sample_size three_of_five <= 5 * sample_printable three_of_five
  /\ classified_as_binary Reference.browser three_of_five
  /\ ~ decoded_as_text Reference.browser three_of_five.
Proof.
  split; [|split].
  - vm_compute. repeat constructor.
  - vm_compute. reflexivity.
  - unfold decoded_as_text. vm_compute. discriminate.
Qed.

Lemma normalizeWsData_buffer_witness :
  decoded_as_text Reference.browser three_of_four
  /\ classified_as_binary Reference.browser three_of_five.
Proof.
  split.
  - apply (proj1 (normalizeWsData_buffer Reference.browser three_of_four)).
    vm_compute. repeat constructor.
  - apply (proj2 (normalizeWsData_buffer Reference.browser three_of_five)).
    vm_compute. repeat constructor.
Defined.

Lemma normalizeWsData_total_witness :
  VapiCallMonitor.normalizeWsData Reference.browser (JObj [("seq", JBigInt 7)])
  = Fulfilled VapiCallMonitor.unreadable.
Proof.
  apply (proj2 (normalizeWsData_total Reference.browser (JObj [("seq", JBigInt 7)]))).
  exact I.
Defined.

(** ** The webhook store *)

Section WebhookFacts.

Import WebhookStore.

Lemma firstn_app_firstn (A : Type) (n : nat) (l m : list A) :
  firstn n (l ++ firstn n m) = firstn n (l ++ m).
Proof.
  rewrite !firstn_app, firstn_firstn.
  replace (Nat.min (n - List.length l) n) with (n - List.length l) by lia.
  reflexivity.
Qed.

Lemma pushWebhookEvent_event (random_id now : string) (stored : Stored)
  (store : list WebhookEvent) :
  snd (pushWebhookEvent random_id now stored store) = event_of (random_id, now, stored).
Proof. reflexivity. Qed.

Lemma pushWebhookEvent_store (random_id now : string) (stored : Stored)
  (store : list WebhookEvent) :
  fst (pushWebhookEvent random_id now stored store)
  = let evt := event_of (random_id, now, stored) in
    if MAX_EVENTS <? S (List.length store) then removelast (evt :: store) else evt :: store.
Proof. reflexivity. Qed.

Lemma pushWebhookEvent_firstn (random_id now : string) (stored : Stored)
  (store : list WebhookEvent) :
  List.length store <= MAX_EVENTS ->
  fst (pushWebhookEvent random_id now stored store)
  = firstn MAX_EVENTS (event_of (random_id, now, stored) :: store).
Proof.
  intros Hlen. rewrite pushWebhookEvent_store. cbv zeta.
  set (evt := event_of (random_id, now, stored)).
  destruct (Nat.ltb_spec MAX_EVENTS (S (List.length store))) as [Hfull|Hroom].
  - rewrite removelast_firstn_len. cbn [List.length Nat.pred].
    replace (List.length store) with MAX_EVENTS by lia. reflexivity.
  - symmetry. apply firstn_all2. cbn [List.length]. lia.
Qed.

Lemma push_all_firstn (pushes : list (string * string * Stored))
  (store : list WebhookEvent) :
  List.length store <= MAX_EVENTS ->
  push_all pushes store = firstn MAX_EVENTS (rev (map event_of pushes) ++ store).
Proof.
  revert store. induction pushes as [|[[random_id now] stored] rest IH]; intros store Hlen.
  - cbn [push_all map rev app]. symmetry. apply firstn_all2. exact Hlen.
  - cbn [push_all]. rewrite IH.
    + rewrite pushWebhookEvent_firstn by exact Hlen.
      rewrite firstn_app_firstn.
      cbn [map rev]. rewrite <- app_assoc. reflexivity.
    + rewrite pushWebhookEvent_firstn by exact Hlen. apply firstn_le_length.
Qed.

(** C6: after any series of pushes the store holds at most 200 events,
    namely the 200 most recent ones, newest first; each push puts its
    event at the front, and a push onto a full store drops exactly the
    event at the back. *)
Theorem pushWebhookEvent_ring (pushes : list (string * string * Stored))
  (random_id now : string) (stored : Stored) :
  let store := push_all pushes [] in
  let store' := fst (pushWebhookEvent random_id now stored store) in
  let evt := snd (pushWebhookEvent random_id now stored store) in
  List.length store <= 200
  /\ store = firstn 200 (rev (map event_of pushes))
  /\ hd_error store' = Some evt
  /\ (List.length store < 200 -> store' = evt :: store)
  /\ (List.length store = 200 -> store' = evt :: removelast store).
Proof.
  cbv zeta.
  assert (Hstore : push_all pushes [] = firstn 200 (rev (map event_of pushes))).
  { rewrite push_all_firstn by (cbn; unfold MAX_EVENTS; lia).
    rewrite app_nil_r. reflexivity. }
  assert (Hlen : List.length (push_all pushes []) <= 200).
  { rewrite Hstore. apply firstn_le_length. }
  set (store := push_all pushes []) in *.
  rewrite pushWebhookEvent_event, pushWebhookEvent_store. cbv zeta.
  set (evt := event_of (random_id, now, stored)).
  split; [exact Hlen|]. split; [exact Hstore|].
  unfold MAX_EVENTS.
  destruct (Nat.ltb_spec 200 (S (List.length store))) as [Hfull|Hroom].
  - assert (Hne : store <> []) by (intros E; rewrite E in Hfull; cbn in Hfull; lia).
    destruct store as [|x rest]; [congruence|].
    change (removelast (evt :: x :: rest)) with (evt :: removelast (x :: rest)).
    split; [reflexivity|]. split; [intros; lia | reflexivity].
  - split; [reflexivity|]. split; [reflexivity | intros; lia].
Qed.

End WebhookFacts.

Lemma pushWebhookEvent_ring_witness :
  let full := WebhookStore.push_all (map numbered_push (seq 0 200)) [] in
  let evt := event_of (numbered_push 200) in
  fst (WebhookStore.pushWebhookEvent "200" "200" (snd (numbered_push 200)) full)
  = evt :: removelast full
  /\ fst (WebhookStore.pushWebhookEvent "200" "200" (snd (numbered_push 200)) [])
     = [evt].
Proof.
  split.
  - apply (proj2 (proj2 (proj2 (proj2
       (pushWebhookEvent_ring (map numbered_push (seq 0 200)) "200" "200"
          (snd (numbered_push 200))))))).
    vm_compute. reflexivity.
  - apply (proj1 (proj2 (proj2 (proj2
       (pushWebhookEvent_ring [] "200" "200" (snd (numbered_push 200))))))).
    vm_compute. repeat constructor.
Defined.

(** ** The message log *)

Import VapiCallMonitor.

(** Unfolds the browser primitives and splits on every test in the way. *)
Ltac open_handler :=
  cbv beta iota zeta delta
    [setInterval setTimeout clearInterval clearTimeout fresh call set_readyState
     setWsConnection fst snd];
  repeat match goal with
    | |- context [if ?c then _ else _] => destruct c
    | |- context [match ?c with _ => _ end] => destruct c
    end.

Section LogFacts.

Import VapiCallMonitor.

Lemma slice_negative (A : Type) (n : nat) (l : list A) :
  0 < n -> slice (- Z.of_nat n) l = keep_last n l.
Proof.
  intros Hn. unfold slice, keep_last.
  destruct (Z.ltb_spec (- Z.of_nat n) 0) as [_|H]; [|lia].
  f_equal. lia.
Qed.

Lemma slice_100 (A : Type) (l : list A) : slice (-100) l = keep_last 100 l.
Proof. apply (slice_negative (n := 100)). lia. Qed.

Lemma keep_last_length (A : Type) (n : nat) (l : list A) :
  List.length (keep_last n l) = Nat.min n (List.length l).
Proof. unfold keep_last. rewrite length_skipn. lia. Qed.

Lemma keep_last_short (A : Type) (n : nat) (l : list A) :
  List.length l <= n -> keep_last n l = l.
Proof.
  intros H. unfold keep_last.
  replace (List.length l - n) with 0 by lia. reflexivity.
Qed.

Lemma keep_last_app (A : Type) (n : nat) (l m : list A) :
  keep_last n (keep_last n l ++ m) = keep_last n (l ++ m).
Proof.
  unfold keep_last.
  rewrite !length_app, length_skipn.
  destruct (Nat.le_gt_cases (List.length l) n) as [Hs|Hl].
  - replace (List.length l - n) with 0 by lia. cbn [skipn].
    f_equal. lia.
  - rewrite (skipn_app (List.length l + List.length m - n) l m).
    rewrite skipn_app, length_skipn, skipn_skipn.
    f_equal.
    + f_equal. lia.
    + f_equal. lia.
Qed.

(** A full log that receives one more entry loses its head. *)
Lemma keep_last_full (A : Type) (n : nat) (x : A) (l : list A) (m : A) :
  List.length (x :: l) = n -> keep_last n ((x :: l) ++ [m]) = (l ++ [m])%list.
Proof.
  intros H. unfold keep_last. rewrite length_app. cbn [List.length] in *.
  replace (S (List.length l) + 1 - n) with 1 by lia. reflexivity.
Qed.

Variable B : Builtins.
Variable WebSocket_new : string -> Completion unit.

Lemma appended_refl (st : State) : appended st st.
Proof. left. reflexivity. Qed.

Lemma appended_trans (st1 st2 st3 : State) :
  appended st1 st2 -> appended st2 st3 -> appended st1 st3.
Proof.
  intros [E12|[l12 E12]] [E23|[l23 E23]].
  - left. congruence.
  - right. exists l23. rewrite E23, E12. reflexivity.
  - right. exists l12. congruence.
  - right. exists (l12 ++ l23)%list.
    rewrite E23, E12, !slice_100, keep_last_app, app_assoc. reflexivity.
Qed.

Lemma appended_bounded (st st' : State) :
  appended st st' ->
  List.length (wsMessages st) <= 100 -> List.length (wsMessages st') <= 100.
Proof.
  intros [E|[later E]] H; rewrite E; [exact H|].
  rewrite slice_100, keep_last_length. lia.
Qed.

Lemma addWsMessage_log (type : string) (data : MessageData) (source : Source)
  (st : State) :
  wsMessages (addWsMessage type data source st)
  = slice (-100)
      (wsMessages st
       ++ [{| type := type; data := data; timestamp := clock st; source := source |}]).
Proof. reflexivity. Qed.

Lemma log_addWsMessage (st x : State) (type : string) (data : MessageData)
  (source : Source) :
  appended st x -> appended st (addWsMessage type data source x).
Proof.
  intros H. apply appended_trans with x; [exact H|].
  right. eexists. apply addWsMessage_log.
Qed.

Lemma log_silent (st x y : State) :
  wsMessages y = wsMessages x -> appended st x -> appended st y.
Proof.
  intros E H. apply appended_trans with x; [exact H|]. left. exact E.
Qed.

Lemma log_with_wsConnection st x c : appended st x -> appended st (with_wsConnection c x).
Proof. apply log_silent. reflexivity. Qed.
Lemma log_with_listenWsRef st x r : appended st x -> appended st (with_listenWsRef r x).
Proof. apply log_silent. reflexivity. Qed.
Lemma log_with_pollRef st x r : appended st x -> appended st (with_pollRef r x).
Proof. apply log_silent. reflexivity. Qed.
Lemma log_with_sockets st x l : appended st x -> appended st (with_sockets l x).
Proof. apply log_silent. reflexivity. Qed.
Lemma log_with_timers st x l : appended st x -> appended st (with_timers l x).
Proof. apply log_silent. reflexivity. Qed.
Lemma log_with_next_handle st x h : appended st x -> appended st (with_next_handle h x).
Proof. apply log_silent. reflexivity. Qed.
Lemma log_with_calls st x l : appended st x -> appended st (with_calls l x).
Proof. apply log_silent. reflexivity. Qed.

Create HintDb log discriminated.
#[local] Hint Resolve appended_refl log_addWsMessage log_with_wsConnection
  log_with_listenWsRef log_with_pollRef log_with_sockets log_with_timers
  log_with_next_handle log_with_calls : log.

Ltac log_auto := open_handler; auto 40 with log.

Lemma log_socket_close st x w : appended st x -> appended st (socket_close w x).
Proof. intros H. unfold socket_close. log_auto. Qed.
#[local] Hint Resolve log_socket_close : log.

Lemma log_stopPollingCall st x : appended st x -> appended st (stopPollingCall x).
Proof. intros H. unfold stopPollingCall. log_auto. Qed.
#[local] Hint Resolve log_stopPollingCall : log.

Lemma log_disconnectWebSockets st x :
  appended st x -> appended st (disconnectWebSockets x).
Proof. intros H. unfold disconnectWebSockets. log_auto. Qed.
#[local] Hint Resolve log_disconnectWebSockets : log.

Lemma log_connectWebSocket st x closure wsUrl :
  appended st x -> appended st (connectWebSocket WebSocket_new closure wsUrl x).
Proof. intros H. unfold connectWebSocket. log_auto. Qed.
#[local] Hint Resolve log_connectWebSocket : log.

Lemma log_connectWebSockets st x closure listenUrl controlUrl :
  appended st x ->
  appended st (connectWebSockets WebSocket_new closure listenUrl controlUrl x).
Proof. intros H. unfold connectWebSockets. log_auto. Qed.
#[local] Hint Resolve log_connectWebSockets : log.

Lemma log_startPollingCall st x closure callId :
  appended st x -> appended st (startPollingCall closure callId x).
Proof. intros H. unfold startPollingCall. log_auto. Qed.
#[local] Hint Resolve log_startPollingCall : log.

Lemma log_poll_tick st x closure callId result :
  appended st x -> appended st (poll_tick WebSocket_new closure callId result x).
Proof. intros H. unfold poll_tick. log_auto. Qed.

Lemma log_call_settled st x closure result :
  appended st x -> appended st (call_settled WebSocket_new closure result x).
Proof. intros H. unfold call_settled. log_auto. Qed.

Lemma log_connection_timeout st x w :
  appended st x -> appended st (connection_timeout w x).
Proof. intros H. unfold connection_timeout. log_auto. Qed.

Lemma log_onopen st x s : appended st x -> appended st (onopen s x).
Proof. intros H. unfold onopen. log_auto. Qed.

Lemma log_onclose st x s wasClean code reason :
  appended st x -> appended st (onclose s wasClean code reason x).
Proof. intros H. unfold onclose. log_auto. Qed.

Lemma log_retry st x wsUrl closure retryDelay :
  appended st x -> appended st (retry WebSocket_new wsUrl closure retryDelay x).
Proof. intros H. unfold retry. log_auto. Qed.

Lemma log_onerror st x s : appended st x -> appended st (onerror s x).
Proof. intros H. unfold onerror. log_auto. Qed.

Lemma log_onmessage st x event_data :
  appended st x -> appended st (onmessage B event_data x).
Proof. intros H. unfold onmessage. log_auto. Qed.

Lemma log_unmount st x : appended st x -> appended st (unmount x).
Proof. intros H. unfold unmount. log_auto. Qed.

#[local] Hint Resolve log_poll_tick log_call_settled log_connection_timeout log_onopen
  log_onclose log_retry log_onerror log_onmessage log_unmount : log.

Lemma log_step st x e :
  appended st x -> appended st (step B WebSocket_new e x).
Proof. intros H. unfold step. destruct e; log_auto. Qed.

Lemma log_run events st x :
  appended st x -> appended st (run B WebSocket_new events x).
Proof.
  revert x. induction events as [|e rest IH]; intros x H; cbn [run fold_left].
  - exact H.
  - apply IH. apply log_step. exact H.
Qed.

Lemma add_all_log (entries : list (string * MessageData * Source)) (st : State) :
  List.length (wsMessages st) <= 100 ->
  wsMessages (add_all entries st)
  = keep_last 100 (wsMessages st ++ stamped (clock st) entries).
Proof.
  revert st. induction entries as [|[[type data] source] rest IH]; intros st Hlen.
  - cbn [add_all stamped]. rewrite app_nil_r. symmetry. apply keep_last_short. exact Hlen.
  - cbn [add_all stamped]. rewrite IH.
    + rewrite addWsMessage_log, slice_100, keep_last_app, <- app_assoc. reflexivity.
    + rewrite addWsMessage_log, slice_100, keep_last_length. lia.
Qed.

(** C5: in every call session the log holds at most 100 entries; a
    series of appended messages leaves the last 100 of them in arrival
    order; one more message on a full log evicts the oldest entry. *)
Theorem wsMessages_capped_fifo :
  (forall (result : Promise CallResponse) (events : list Event),
     List.length (wsMessages (session B WebSocket_new result events)) <= 100)
  /\ (forall (entries : list (string * MessageData * Source)),
        wsMessages (add_all entries initial) = keep_last 100 (stamped 0 entries)
        /\ List.length (wsMessages (add_all entries initial)) <= 100)
  /\ (forall (st : State) (type : string) (data : MessageData) (source : Source),
        List.length (wsMessages st) = 100 ->
        wsMessages (addWsMessage type data source st)
        = (tl (wsMessages st)
           ++ [{| type := type; data := data; timestamp := clock st; source := source |}])%list).
Proof.
  split; [|split].
  - intros result events.
    apply appended_bounded with initial; [|cbn; lia].
    unfold session. apply log_run. apply log_call_settled. apply appended_refl.
  - intros entries.
    assert (E : wsMessages (add_all entries initial) = keep_last 100 (stamped 0 entries)).
    { rewrite add_all_log by (cbn; lia). reflexivity. }
    split; [exact E|]. rewrite E, keep_last_length. lia.
  - intros st type data source Hfull.
    rewrite addWsMessage_log, slice_100.
    destruct (wsMessages st) as [|x l] eqn:E; [cbn in Hfull; lia|].
    apply keep_last_full. exact Hfull.
Qed.

Lemma find_remove_timer (h : positive) (l : list Timer) :
  find (fun t => Pos.eqb (handle t) h) (remove_timer h l) = None.
Proof.
  unfold remove_timer. induction l as [|t l IH]; [reflexivity|].
  cbn [filter]. destruct (Pos.eqb (handle t) h) eqn:E; cbn [negb]; [exact IH|].
  cbn [find]. rewrite E. exact IH.
Qed.

(** What [stopPollingCall] leaves behind. *)
Lemma stopPollingCall_stops (st : State) :
  pollRef (stopPollingCall st) = None
  /\ forall h, pollRef st = Some h -> find_timer h (stopPollingCall st) = None.
Proof.
  unfold stopPollingCall. destruct (pollRef st) as [h|] eqn:E.
  - split; [reflexivity|]. intros h' Hh'. injection Hh' as <-.
    unfold find_timer. cbn. apply find_remove_timer.
  - split; [exact E|]. intros h' Hh'. discriminate.
Qed.

Lemma stopPollingCall_idle (st : State) :
  pollRef st = None -> stopPollingCall st = st.
Proof. intros E. unfold stopPollingCall. rewrite E. reflexivity. Qed.

Lemma pollRef_socket_close (w : positive) (st : State) :
  pollRef (socket_close w st) = pollRef st.
Proof. unfold socket_close. open_handler; reflexivity. Qed.

Lemma pollRef_disconnectWebSockets (st : State) :
  pollRef (disconnectWebSockets st) = pollRef st.
Proof.
  unfold disconnectWebSockets. destruct (listenWsRef st); cbn; [|reflexivity].
  apply pollRef_socket_close.
Qed.

Lemma pollRef_connectWebSocket closure wsUrl (st : State) :
  pollRef (connectWebSocket WebSocket_new closure wsUrl st) = pollRef st.
Proof. unfold connectWebSocket. open_handler; reflexivity. Qed.

Lemma pollRef_connectWebSockets closure listenUrl controlUrl (st : State) :
  pollRef (connectWebSockets WebSocket_new closure listenUrl controlUrl st) = pollRef st.
Proof.
  unfold connectWebSockets.
  destruct (truthy_string controlUrl), (truthy_string listenUrl); cbn;
    rewrite ?pollRef_connectWebSocket; apply pollRef_disconnectWebSockets.
Qed.


End LogFacts.

Lemma wsMessages_capped_fifo_witness :
  VapiCallMonitor.wsMessages
    (VapiCallMonitor.addWsMessage "raw" (VapiCallMonitor.Text "one more")
       VapiCallMonitor.listen hundred_frames)
  = (tl (VapiCallMonitor.wsMessages hundred_frames)
     ++ [{| VapiCallMonitor.type := "raw";
            VapiCallMonitor.data := VapiCallMonitor.Text "one more";
            VapiCallMonitor.timestamp := 100;
            VapiCallMonitor.source := VapiCallMonitor.listen |}])%list.
Proof.
  apply (proj2 (proj2 (wsMessages_capped_fifo Reference.browser Reference.new_WebSocket))
           hundred_frames "raw" (VapiCallMonitor.Text "one more") VapiCallMonitor.listen).
  vm_compute. reflexivity.
Defined.


(** ** Channel and poller *)

Section ExclusionFacts.

Variable B : Builtins.
Variable WebSocket_new : string -> Completion unit.

Lemma existsb_filter (A : Type) (p q : A -> bool) (l : list A) :
  existsb p l = false -> existsb p (filter q l) = false.
Proof.
  induction l as [|x l IH]; cbn [existsb filter]; [reflexivity|].
  intros H. apply Bool.orb_false_iff in H. destruct H as [Hx Hl].
  destruct (q x); cbn [existsb]; [rewrite Hx|]; auto.
Qed.

Lemma calm_add_timer (st : State) (t : Timer) :
  is_poll_timer t = false -> calm st -> calm (with_timers (timers st ++ [t]) st).
Proof.
  unfold calm. cbn. intros Ht H. rewrite existsb_app, H. cbn. rewrite Ht. reflexivity.
Qed.

Lemma calm_remove_timer (st : State) (h : positive) :
  calm st -> calm (with_timers (remove_timer h (timers st)) st).
Proof. unfold calm. cbn. apply existsb_filter. Qed.

Lemma calm_addWsMessage st type data source :
  calm st -> calm (addWsMessage type data source st).
Proof. exact (fun H => H). Qed.
Lemma calm_with_wsConnection st c : calm st -> calm (with_wsConnection c st).
Proof. exact (fun H => H). Qed.
Lemma calm_with_listenWsRef st r : calm st -> calm (with_listenWsRef r st).
Proof. exact (fun H => H). Qed.
Lemma calm_with_pollRef st r : calm st -> calm (with_pollRef r st).
Proof. exact (fun H => H). Qed.
Lemma calm_with_sockets st l : calm st -> calm (with_sockets l st).
Proof. exact (fun H => H). Qed.
Lemma calm_with_next_handle st h : calm st -> calm (with_next_handle h st).
Proof. exact (fun H => H). Qed.
Lemma calm_with_calls st l : calm st -> calm (with_calls l st).
Proof. exact (fun H => H). Qed.

Create HintDb calm discriminated.
#[local] Hint Resolve calm_add_timer calm_remove_timer calm_addWsMessage
  calm_with_wsConnection calm_with_listenWsRef calm_with_pollRef calm_with_sockets
  calm_with_next_handle calm_with_calls : calm.
#[local] Hint Extern 1 (is_poll_timer _ = false) => reflexivity : calm.

Ltac calm_auto := open_handler; auto 40 with calm.

Lemma calm_socket_close st w : calm st -> calm (socket_close w st).
Proof. intros H. unfold socket_close. calm_auto. Qed.
#[local] Hint Resolve calm_socket_close : calm.

Lemma calm_stopPollingCall st : calm st -> calm (stopPollingCall st).
Proof. intros H. unfold stopPollingCall. calm_auto. Qed.
#[local] Hint Resolve calm_stopPollingCall : calm.

Lemma calm_disconnectWebSockets st : calm st -> calm (disconnectWebSockets st).
Proof. intros H. unfold disconnectWebSockets. calm_auto. Qed.
#[local] Hint Resolve calm_disconnectWebSockets : calm.

Lemma calm_connectWebSocket st closure wsUrl :
  calm st -> calm (connectWebSocket WebSocket_new closure wsUrl st).
Proof. intros H. unfold connectWebSocket. calm_auto. Qed.
#[local] Hint Resolve calm_connectWebSocket : calm.

Lemma calm_connectWebSockets st closure listenUrl controlUrl :
  calm st -> calm (connectWebSockets WebSocket_new closure listenUrl controlUrl st).
Proof. intros H. unfold connectWebSockets. calm_auto. Qed.
#[local] Hint Resolve calm_connectWebSockets : calm.

Lemma calm_connection_timeout st w : calm st -> calm (connection_timeout w st).
Proof. intros H. unfold connection_timeout. calm_auto. Qed.

Lemma calm_onopen st s : calm st -> calm (onopen s st).
Proof. intros H. unfold onopen. calm_auto. Qed.

Lemma calm_onclose st s wasClean code reason :
  calm st -> calm (onclose s wasClean code reason st).
Proof. intros H. unfold onclose. calm_auto. Qed.

Lemma calm_retry st wsUrl closure retryDelay :
  calm st -> calm (retry WebSocket_new wsUrl closure retryDelay st).
Proof. intros H. unfold retry. calm_auto. Qed.

Lemma calm_onerror st s : calm st -> calm (onerror s st).
Proof. intros H. unfold onerror. calm_auto. Qed.

Lemma calm_onmessage st event_data : calm st -> calm (onmessage B event_data st).
Proof. intros H. unfold onmessage. calm_auto. Qed.

Lemma calm_unmount st : calm st -> calm (unmount st).
Proof. intros H. unfold unmount. calm_auto. Qed.

#[local] Hint Resolve calm_connection_timeout calm_onopen calm_onclose calm_retry
  calm_onerror calm_onmessage calm_unmount : calm.

Lemma calm_step st e : calm st -> calm (step B WebSocket_new e st).
Proof.
  intros H. unfold step. destruct e; try solve [calm_auto].
  unfold poll_tick. calm_auto.
Qed.

Lemma idle_addWsMessage st type data source :
  idle st -> idle (addWsMessage type data source st).
Proof. exact (fun H => H). Qed.
Lemma idle_with_wsConnection st c : idle st -> idle (with_wsConnection c st).
Proof. exact (fun H => H). Qed.
Lemma idle_with_listenWsRef st r : idle st -> idle (with_listenWsRef r st).
Proof. exact (fun H => H). Qed.
Lemma idle_with_sockets st l : idle st -> idle (with_sockets l st).
Proof. exact (fun H => H). Qed.
Lemma idle_with_timers st l : idle st -> idle (with_timers l st).
Proof. exact (fun H => H). Qed.
Lemma idle_with_next_handle st h : idle st -> idle (with_next_handle h st).
Proof. exact (fun H => H). Qed.
Lemma idle_with_calls st l : idle st -> idle (with_calls l st).
Proof. exact (fun H => H). Qed.
Lemma idle_with_pollRef_None st : idle (with_pollRef None st).
Proof. reflexivity. Qed.

Create HintDb idle discriminated.
#[local] Hint Resolve idle_addWsMessage idle_with_wsConnection idle_with_listenWsRef
  idle_with_sockets idle_with_timers idle_with_next_handle idle_with_calls
  idle_with_pollRef_None : idle.

Ltac idle_auto := open_handler; auto 40 with idle.

Lemma idle_socket_close st w : idle st -> idle (socket_close w st).
Proof. intros H. unfold socket_close. idle_auto. Qed.
#[local] Hint Resolve idle_socket_close : idle.

Lemma idle_stopPollingCall st : idle (stopPollingCall st).
Proof. apply stopPollingCall_stops. Qed.
#[local] Hint Resolve idle_stopPollingCall : idle.

Lemma idle_disconnectWebSockets st : idle st -> idle (disconnectWebSockets st).
Proof. intros H. unfold disconnectWebSockets. idle_auto. Qed.
#[local] Hint Resolve idle_disconnectWebSockets : idle.

Lemma idle_connectWebSocket st closure wsUrl :
  idle st -> idle (connectWebSocket WebSocket_new closure wsUrl st).
Proof. intros H. unfold connectWebSocket. idle_auto. Qed.
#[local] Hint Resolve idle_connectWebSocket : idle.

Lemma idle_connectWebSockets st closure listenUrl controlUrl :
  idle st -> idle (connectWebSockets WebSocket_new closure listenUrl controlUrl st).
Proof. intros H. unfold connectWebSockets. idle_auto. Qed.
#[local] Hint Resolve idle_connectWebSockets : idle.

Lemma idle_step st e : idle st -> idle (step B WebSocket_new e st).
Proof.
  intros H. unfold step. destruct e.
  - unfold poll_tick. idle_auto.
  - unfold connection_timeout, retry. idle_auto.
  - unfold onopen. idle_auto.
  - unfold onclose. idle_auto.
  - unfold onerror. idle_auto.
  - unfold onmessage. idle_auto.
  - unfold unmount. idle_auto.
Qed.

Lemma quiet_step st e : quiet st -> quiet (step B WebSocket_new e st).
Proof.
  intros [Hi Hc]. split; [apply idle_step | apply calm_step]; assumption.
Qed.

(** The timers a handler leaves are those it found plus timers that do
    not belong to a poller. *)
Lemma timers_socket_close (w : positive) (st : State) :
  timers (socket_close w st) = timers st.
Proof. unfold socket_close. open_handler; reflexivity. Qed.

Lemma timers_disconnectWebSockets (st : State) :
  timers (disconnectWebSockets st) = timers st.
Proof.
  unfold disconnectWebSockets. destruct (listenWsRef st); cbn; [|reflexivity].
  apply timers_socket_close.
Qed.

Lemma timers_connectWebSockets closure listenUrl controlUrl (st : State) :
  exists extra,
    timers (connectWebSockets WebSocket_new closure listenUrl controlUrl st)
    = (timers st ++ extra)%list
    /\ existsb is_poll_timer extra = false.
Proof.
  unfold connectWebSockets, connectWebSocket.
  rewrite <- (timers_disconnectWebSockets st).
  generalize (disconnectWebSockets st). intros d.
  destruct (truthy_string controlUrl), (truthy_string listenUrl);
    try destruct (WebSocket_new listenUrl); cbn;
    first [ exists []; rewrite app_nil_r; split; reflexivity
          | eexists; split; reflexivity ].
Qed.

Lemma remove_all_poll_timers (h : positive) (own extra : list Timer) :
  forallb (fun t => is_poll_timer t && Pos.eqb (handle t) h) own = true ->
  existsb is_poll_timer extra = false ->
  existsb is_poll_timer (remove_timer h (own ++ extra)) = false.
Proof.
  intros Hown Hextra. unfold remove_timer. rewrite filter_app, existsb_app.
  rewrite (existsb_filter _ _ _ Hextra), Bool.orb_false_r.
  induction own as [|t own IH]; [reflexivity|].
  cbn [forallb] in Hown. apply Bool.andb_true_iff in Hown. destruct Hown as [Ht Hrest].
  apply Bool.andb_true_iff in Ht. destruct Ht as [_ Hh].
  cbn [filter]. rewrite Hh. cbn [negb]. apply IH. exact Hrest.
Qed.

(** Stopping the poller in a state whose poll timers all carry the handle
    in the ref. *)
Lemma stopPollingCall_quiet (h : positive) (own extra : list Timer) (st : State) :
  pollRef st = Some h ->
  timers st = (own ++ extra)%list ->
  forallb (fun t => is_poll_timer t && Pos.eqb (handle t) h) own = true ->
  existsb is_poll_timer extra = false ->
  quiet (stopPollingCall st).
Proof.
  intros Href Htimers Hown Hextra. split; [apply idle_stopPollingCall|].
  unfold stopPollingCall, calm. rewrite Href. cbn. rewrite Htimers.
  apply remove_all_poll_timers; assumption.
Qed.

Lemma polling_stopPollingCall (h : positive) (st : State) :
  polling h st -> quiet (stopPollingCall st).
Proof.
  intros (Href & _ & _ & Hown).
  apply stopPollingCall_quiet with h (timers st) [];
    [exact Href | symmetry; apply app_nil_r | exact Hown | reflexivity].
Qed.

Lemma quiet_stopPollingCall (st : State) : quiet st -> quiet (stopPollingCall st).
Proof.
  intros [Hi Hc]. split; [apply idle_stopPollingCall | apply calm_stopPollingCall, Hc].
Qed.

Lemma polling_poll_tick (h : positive) closure callId result (st : State) :
  polling h st -> exclusive (poll_tick WebSocket_new closure callId result st).
Proof.
  intros Hp. pose proof Hp as (Href & Hsock & Hlisten & Hown).
  unfold poll_tick. destruct result as [updated|err].
  - set (first := addWsMessage "poll" (PollUpdate callId updated) poll st).
    assert (Hfirst : polling h first) by exact Hp.
    destruct (monitor_url_present updated).
    + (* the channel is opened, then the poller is stopped *)
      match goal with
      | |- context [connectWebSockets ?W ?c ?l ?u ?x] =>
          set (opened := connectWebSockets W c l u x);
          destruct (timers_connectWebSockets c l u x) as (extra & Htimers & Hextra);
          assert (Hopen : pollRef opened = Some h)
            by (unfold opened; rewrite pollRef_connectWebSockets; exact Href)
      end.
      fold opened in Htimers.
      assert (Hq : quiet (stopPollingCall opened)).
      { apply stopPollingCall_quiet with h (timers st) extra; assumption. }
      left. destruct (is_terminal updated); [|exact Hq].
      apply quiet_stopPollingCall. exact Hq.
    + destruct (is_terminal updated).
      * left. apply polling_stopPollingCall with h. exact Hfirst.
      * right. exists h. exact Hfirst.
  - right. exists h. exact Hp.
Qed.

Lemma polling_step (h : positive) (st : State) (e : Event) :
  polling h st -> exclusive (step B WebSocket_new e st).
Proof.
  intros Hp. pose proof Hp as (Href & Hsock & Hlisten & Hown).
  assert (Hnone : forall w, find_socket w st = None).
  { intros w. unfold find_socket. rewrite Hsock. reflexivity. }
  destruct e; cbn [step]; rewrite ?Hnone; try (right; exists h; exact Hp).
  - apply polling_poll_tick with h. exact Hp.
  - (* a timer fires: every registered timer is the poll interval *)
    unfold find_timer. destruct (find _ (timers st)) as [t|] eqn:Efind.
    + apply find_some in Efind. destruct Efind as [Hin _].
      rewrite forallb_forall in Hown. specialize (Hown t Hin).
      apply Bool.andb_true_iff in Hown. destruct Hown as [Hpoll _].
      unfold is_poll_timer in Hpoll.
      destruct (task t); try discriminate. right. exists h. exact Hp.
    + right. exists h. exact Hp.
  - (* unmount *)
    left. unfold unmount. apply polling_stopPollingCall with h.
    unfold disconnectWebSockets. rewrite Hlisten. exact Hp.
Qed.

Lemma exclusive_step (st : State) (e : Event) :
  exclusive st -> exclusive (step B WebSocket_new e st).
Proof.
  intros [Hq|[h Hp]].
  - left. apply quiet_step. exact Hq.
  - apply polling_step with h. exact Hp.
Qed.

Lemma exclusive_run (events : list Event) (st : State) :
  exclusive st -> exclusive (run B WebSocket_new events st).
Proof.
  revert st. induction events as [|e rest IH]; intros st H; cbn [run fold_left].
  - exact H.
  - apply IH. apply exclusive_step. exact H.
Qed.

Lemma exclusive_call_settled closure result :
  exclusive (call_settled WebSocket_new closure result initial).
Proof.
  unfold call_settled. destruct result as [response|err].
  - destruct (truthy_string (monitor_listenUrl response)).
    + left. split.
      * apply idle_connectWebSockets. reflexivity.
      * apply calm_connectWebSockets. reflexivity.
    + destruct (truthy_string (id response)).
      * right. exists 1%positive. repeat split.
      * left. split; reflexivity.
  - left. split; reflexivity.
Qed.

Lemma exclusive_not_both (st : State) :
  exclusive st -> poller_active st && channel_active st = false.
Proof.
  unfold poller_active, channel_active.
  intros [[_ Hc]|[h (_ & Hsock & _)]].
  - unfold calm in Hc. rewrite Hc. reflexivity.
  - rewrite Hsock. apply Bool.andb_false_r.
Qed.

Lemma monitor_url_present_listen (updated : CallResponse) :
  truthy_string (monitor_listenUrl updated) = true -> monitor_url_present updated = true.
Proof.
  unfold monitor_listenUrl, monitor_url_present.
  destruct (monitor updated) as [m|]; [intros ->; reflexivity | discriminate].
Qed.

Lemma calls_socket_close (w : positive) (st : State) :
  calls (socket_close w st) = (calls st ++ [CloseWebSocket w])%list.
Proof. unfold socket_close. open_handler; reflexivity. Qed.

Lemma disconnectWebSockets_frame (st : State) :
  calls (disconnectWebSockets st) = (calls st ++ closing st)%list
  /\ next_handle (disconnectWebSockets st) = next_handle st
  /\ pollRef (disconnectWebSockets st) = pollRef st.
Proof.
  unfold disconnectWebSockets, closing. destruct (listenWsRef st) as [w|]; cbn.
  - rewrite calls_socket_close. repeat split.
    + unfold socket_close. open_handler; reflexivity.
    + apply pollRef_socket_close.
  - rewrite app_nil_r. repeat split.
Qed.

(** The order of browser calls in a tick that finds a listen URL. *)
Lemma poll_tick_call_order closure callId updated (st : State) (h : positive) :
  pollRef st = Some h ->
  truthy_string (monitor_listenUrl updated) = true ->
  WebSocket_new (monitor_listenUrl updated) = Normal tt ->
  let st' := poll_tick WebSocket_new closure callId (Fulfilled updated) st in
  calls st'
  = (calls st ++ closing st
     ++ [NewWebSocket (next_handle st) (monitor_listenUrl updated);
         SetTimeout (Pos.succ (next_handle st)) 10000;
         ClearInterval h])%list
  /\ pollRef st' = None.
Proof.
  intros Href Hlisten Hnew. cbv zeta.
  assert (Hfinal : pollRef
                     (poll_tick WebSocket_new closure callId (Fulfilled updated) st) = None).
  { unfold poll_tick. destruct (is_terminal updated).
    - apply stopPollingCall_stops.
    - rewrite monitor_url_present_listen by exact Hlisten. apply stopPollingCall_stops. }
  split; [|exact Hfinal].
  unfold poll_tick. rewrite monitor_url_present_listen by exact Hlisten.
  match goal with
  | |- context [connectWebSockets ?W ?c ?l ?u ?x] =>
      set (before := x); set (opened := connectWebSockets W c l u before)
  end.
  assert (Hopened : calls opened
                    = (calls st ++ closing st
                       ++ [NewWebSocket (next_handle st) (monitor_listenUrl updated);
                           SetTimeout (Pos.succ (next_handle st)) 10000])%list
                    /\ pollRef opened = Some h).
  { split.
    - unfold opened, connectWebSockets, connectWebSocket.
      rewrite Hlisten, Hnew.
      destruct (disconnectWebSockets_frame before) as (Hc & Hn & _).
      revert Hc Hn. generalize (disconnectWebSockets before). intros d Hc Hn.
      change (calls d = (calls st ++ closing st)%list) in Hc.
      change (next_handle d = next_handle st) in Hn.
      destruct (truthy_string (monitor_controlUrl updated)); cbn;
        rewrite Hc, Hn, <- !app_assoc; reflexivity.
    - unfold opened. rewrite pollRef_connectWebSockets. exact Href. }
  destruct Hopened as [Hcalls Hpoll].
  assert (Hstopped : calls (stopPollingCall opened)
                     = (calls opened ++ [ClearInterval h])%list
                     /\ pollRef (stopPollingCall opened) = None).
  { unfold stopPollingCall. rewrite Hpoll. split; reflexivity. }
  destruct Hstopped as [Hcalls' Hpoll'].
  assert (Hgoal : calls (stopPollingCall opened)
                  = (calls st ++ closing st
                     ++ [NewWebSocket (next_handle st) (monitor_listenUrl updated);
                         SetTimeout (Pos.succ (next_handle st)) 10000;
                         ClearInterval h])%list).
  { rewrite Hcalls', Hcalls, <- !app_assoc. reflexivity. }
  destruct (is_terminal updated); [|exact Hgoal].
  rewrite stopPollingCall_idle by exact Hpoll'. exact Hgoal.
Qed.

(** C2, amended: in a call session at most one of the poller and the
    channel is active whenever no handler is running; a polling tick that
    finds a listen URL closes the socket in the ref, if any, opens the
    new socket and arms its timeout, and only then clears the interval,
    which leaves the poller's ref empty when the tick returns. *)
Theorem channel_and_poller_between_handlers :
  (forall (result : Promise CallResponse) (events : list Event),
     let st := session B WebSocket_new result events in
     poller_active st && channel_active st = false)
  /\ (forall closure callId updated (st : State) (h : positive),
        pollRef st = Some h ->
        truthy_string (monitor_listenUrl updated) = true ->
        WebSocket_new (monitor_listenUrl updated) = Normal tt ->
        let st' := poll_tick WebSocket_new closure callId (Fulfilled updated) st in
        calls st'
        = (calls st ++ closing st
           ++ [NewWebSocket (next_handle st) (monitor_listenUrl updated);
               SetTimeout (Pos.succ (next_handle st)) 10000;
               ClearInterval h])%list
        /\ pollRef st' = None).
Proof.
  split.
  - intros result events. cbv zeta. apply exclusive_not_both.
    unfold session. apply exclusive_run. apply exclusive_call_settled.
  - intros closure callId updated st h. apply poll_tick_call_order.
Qed.

End ExclusionFacts.

(** C2 as stated fails: the socket is constructed while the interval is
    still set, and the interval is cleared two browser calls later. *)
Lemma poll_tick_opens_channel_before_cancelling :
  VapiCallMonitor.calls switching_session
  = [VapiCallMonitor.SetInterval 1 3000;
     VapiCallMonitor.NewWebSocket 2 "wss://listen";
     VapiCallMonitor.SetTimeout 3 10000;
     VapiCallMonitor.ClearInterval 1]
  /\ VapiCallMonitor.index_of VapiCallMonitor.is_NewWebSocket
       (VapiCallMonitor.calls switching_session) = Some 1
  /\ VapiCallMonitor.index_of VapiCallMonitor.is_ClearInterval
       (VapiCallMonitor.calls switching_session) = Some 3
  /\ VapiCallMonitor.exclusive_calls (VapiCallMonitor.calls switching_session) = false.
Proof. vm_compute. repeat split. Qed.

Lemma channel_and_poller_between_handlers_witness :
  VapiCallMonitor.pollRef
    (VapiCallMonitor.poll_tick Reference.new_WebSocket
       (VapiCallMonitor.wsConnection VapiCallMonitor.initial) "call_1"
       (Fulfilled monitored_call) polling_session) = None.
Proof.
  apply (proj2 (channel_and_poller_between_handlers Reference.browser
                  Reference.new_WebSocket)
           (VapiCallMonitor.wsConnection VapiCallMonitor.initial) "call_1"
           monitored_call polling_session 1%positive);
    reflexivity.
Defined.

(** ** Reconnection *)

Section RetryFacts.

Variable B : Builtins.
Variable WebSocket_new : string -> Completion unit.

(** An unexpected close schedules the retry from the closure's
    [wsConnection]: the test and the delay do not read the state. *)
Lemma onclose_schedules_from_closure (s : Socket) (code : N) (reason : string)
  (st : State) :
  retryCount (seen s) < 3 ->
  let retryDelay := (2 ^ N.of_nat (retryCount (seen s)) * 1000)%N in
  timers (onclose s false code reason st)
  = (remove_timer (connectionTimeout s) (timers st)
     ++ [{| handle := next_handle st; delay := retryDelay; repeats := false;
            task := Retry (socket_url s) (seen s) retryDelay |}])%list.
Proof.
  intros Hlt. cbv zeta. unfold onclose.
  apply Nat.ltb_lt in Hlt. rewrite Hlt. reflexivity.
Qed.

(** The retry reconnects with the closure it was scheduled with, and
    leaves the counter in the state at 0. *)
Lemma retry_keeps_closure (wsUrl : string) (closure : WebSocketConnection)
  (retryDelay : N) (st : State) :
  WebSocket_new wsUrl = Normal tt ->
  let st' := retry WebSocket_new wsUrl closure retryDelay st in
  sockets st'
  = (sockets st
     ++ [{| socket_id := next_handle st; socket_url := wsUrl; readyState := CONNECTING;
            seen := closure; connectionTimeout := Pos.succ (next_handle st) |}])%list
  /\ retryCount (wsConnection st') = 0.
Proof.
  intros Hnew. cbv zeta. unfold retry, connectWebSocket. rewrite Hnew.
  split; reflexivity.
Qed.

Lemma find_last (A : Type) (p : A -> bool) (old : list A) (x : A) :
  Forall (fun o => p o = false) old -> p x = true -> find p (old ++ [x]) = Some x.
Proof.
  intros Hold Hx. induction Hold as [|o old Ho _ IH]; cbn [app find].
  - rewrite Hx. reflexivity.
  - rewrite Ho. exact IH.
Qed.

Lemma Forall_remove_timer (P : Timer -> Prop) (h : positive) (l : list Timer) :
  Forall P l -> Forall P (remove_timer h l).
Proof.
  intros H. unfold remove_timer. apply Forall_forall. intros t Ht.
  apply filter_In in Ht. rewrite Forall_forall in H. apply H, Ht.
Qed.

Lemma Forall_filter (A : Type) (P : A -> Prop) (q : A -> bool) (l : list A) :
  Forall P l -> Forall P (filter q l).
Proof.
  intros H. apply Forall_forall. intros x Hx.
  apply filter_In in Hx. rewrite Forall_forall in H. apply H, Hx.
Qed.

Lemma Forall_map_socket_id (Q : positive -> Prop) (f : Socket -> Socket)
  (l : list Socket) :
  (forall o, socket_id (f o) = socket_id o) ->
  Forall (fun o => Q (socket_id o)) l -> Forall (fun o => Q (socket_id o)) (map f l).
Proof.
  intros Hf H. induction H as [|o l Ho _ IH]; cbn [map]; constructor.
  - rewrite Hf. exact Ho.
  - exact IH.
Qed.

Lemma awaiting_open_drop_once (c : WebSocketConnection) (u : string) (st : State) :
  retryCount c < 3 ->
  WebSocket_new u = Normal tt ->
  awaiting_open c u st ->
  let retryDelay := (2 ^ N.of_nat (retryCount c) * 1000)%N in
  awaiting_open c u (drop_once B WebSocket_new st)
  /\ exists t,
       calls (drop_once B WebSocket_new st)
       = (calls st ++ retry_round t (next_handle st) retryDelay u)%list.
Proof.
  intros Hlt Hnew (w & old & s & Href & Hsock & Hid & Hready & Hseen & Hurl
                   & Hold & Hfresh_s & Hfresh_t).
  cbv zeta. unfold drop_once. rewrite Href.
  cbn [run fold_left step].
  assert (Hfind : find_socket w st = Some s).
  { unfold find_socket. rewrite Hsock. apply find_last.
    - eapply Forall_impl; [|exact Hold]. intros o Ho. cbn beta in Ho |- *.
      apply Pos.eqb_neq. exact Ho.
    - apply Pos.eqb_eq. exact Hid. }
  rewrite Hfind, Hready.
  unfold onclose. rewrite Hseen, Hurl.
  apply Nat.ltb_lt in Hlt. rewrite Hlt.
  destruct st as [msgs conn lref pref socks tms nh clk cs].
  cbn in Href, Hsock, Hfresh_s, Hfresh_t, Hfind |- *.
  unfold find_timer. cbn.
  assert (Hfire : find (fun t => Pos.eqb (handle t) nh)
                    (remove_timer (connectionTimeout s) tms
                     ++ [{| handle := nh;
                            delay := (2 ^ N.of_nat (retryCount c) * 1000)%N;
                            repeats := false;
                            task := Retry u c (2 ^ N.of_nat (retryCount c) * 1000)%N |}])
                  = Some {| handle := nh;
                            delay := (2 ^ N.of_nat (retryCount c) * 1000)%N;
                            repeats := false;
                            task := Retry u c (2 ^ N.of_nat (retryCount c) * 1000)%N |}).
  { apply find_last.
    - apply Forall_remove_timer. eapply Forall_impl; [|exact Hfresh_t].
      intros t Ht. cbn beta in Ht |- *. apply Pos.eqb_neq. lia.
    - apply Pos.eqb_refl. }
  unfold remove_timer in Hfire. rewrite Hfire. cbn [task].
  unfold retry, connectWebSocket. rewrite Hnew. cbn.
  split.
  - exists (Pos.succ nh).
    eexists. eexists. split; [reflexivity|]. split; [reflexivity|].
    cbn. repeat split.
    + (* the older sockets have other names *)
      apply (Forall_map_socket_id (fun i => i <> Pos.succ nh));
        [intros o; destruct (Pos.eqb (socket_id o) w); reflexivity|].
      eapply Forall_impl; [|exact Hfresh_s]. intros o Ho. cbn beta in Ho |- *. lia.
    + apply Forall_app. split.
      * apply (Forall_map_socket_id
                 (fun i => (i < Pos.succ (Pos.succ (Pos.succ nh)))%positive));
          [intros o; destruct (Pos.eqb (socket_id o) w); reflexivity|].
        eapply Forall_impl; [|exact Hfresh_s]. intros o Ho. cbn beta in Ho |- *. lia.
      * constructor; [cbn; lia | constructor].
    + apply Forall_app. split.
      * apply Forall_filter. apply Forall_app. split.
        -- apply Forall_filter. eapply Forall_impl; [|exact Hfresh_t].
           intros t Ht. cbn beta in Ht |- *. lia.
        -- constructor; [cbn; lia | constructor].
      * constructor; [cbn; lia | constructor].
  - eexists. unfold retry_round. rewrite <- !app_assoc. reflexivity.
Qed.


(** However many retries have failed, the next unexpected close is
    answered the same way. *)
Lemma drops_never_stop (c : WebSocketConnection) (u : string) (st : State) (n : nat) :
  retryCount c < 3 ->
  WebSocket_new u = Normal tt ->
  awaiting_open c u st ->
  let before := drops B WebSocket_new n st in
  awaiting_open c u before
  /\ exists t,
       calls (drops B WebSocket_new (S n) st)
       = (calls before
          ++ retry_round t (next_handle before)
               (2 ^ N.of_nat (retryCount c) * 1000)%N u)%list.
Proof.
  intros Hlt Hnew Hst. cbv zeta.
  assert (Hn : awaiting_open c u (drops B WebSocket_new n st)).
  { induction n as [|n IH]; [exact Hst|].
    cbn [drops]. apply awaiting_open_drop_once; assumption. }
  split; [exact Hn|].
  cbn [drops]. apply awaiting_open_drop_once; assumption.
Qed.

End RetryFacts.

Lemma listening_session_awaiting_open :
  awaiting_open (VapiCallMonitor.wsConnection VapiCallMonitor.initial) "wss://listen"
    listening_session.
Proof.
  exists 1%positive, [].
  eexists. vm_compute. repeat split; repeat constructor.
Qed.

(** C7: in a session whose listen socket closes unexpectedly four times
    in a row, every retry is scheduled one second ahead, the counter in
    the state is 0 after each reconnect, and the fourth close, coming after
    three failed retries, schedules a fourth retry; the same holds after
    any number of failed retries. *)
Theorem retries_neither_back_off_nor_stop :
  (let st := VapiCallMonitor.run Reference.browser Reference.new_WebSocket four_drops
               listening_session in
   VapiCallMonitor.calls st
   = [VapiCallMonitor.NewWebSocket 1 "wss://listen";
      VapiCallMonitor.SetTimeout 2 10000;
      VapiCallMonitor.ClearTimeout 2;
      VapiCallMonitor.SetTimeout 3 1000;
      VapiCallMonitor.NewWebSocket 4 "wss://listen";
      VapiCallMonitor.SetTimeout 5 10000;
      VapiCallMonitor.ClearTimeout 5;
      VapiCallMonitor.SetTimeout 6 1000;
      VapiCallMonitor.NewWebSocket 7 "wss://listen";
      VapiCallMonitor.SetTimeout 8 10000;
      VapiCallMonitor.ClearTimeout 8;
      VapiCallMonitor.SetTimeout 9 1000;
      VapiCallMonitor.NewWebSocket 10 "wss://listen";
      VapiCallMonitor.SetTimeout 11 10000;
      VapiCallMonitor.ClearTimeout 11;
      VapiCallMonitor.SetTimeout 12 1000]
   /\ VapiCallMonitor.timers st
      = [{| VapiCallMonitor.handle := 12; VapiCallMonitor.delay := 1000;
            VapiCallMonitor.repeats := false;
            VapiCallMonitor.task :=
              VapiCallMonitor.Retry "wss://listen"
                (VapiCallMonitor.wsConnection VapiCallMonitor.initial) 1000 |}]
   /\ VapiCallMonitor.retryCount (VapiCallMonitor.wsConnection st) = 0)
  /\ (forall n : nat,
        let before := drops Reference.browser Reference.new_WebSocket n listening_session in
        exists t,
          VapiCallMonitor.calls
            (drops Reference.browser Reference.new_WebSocket (S n) listening_session)
          = (VapiCallMonitor.calls before
             ++ retry_round t (VapiCallMonitor.next_handle before) 1000 "wss://listen")%list).
Proof.
  split.
  - vm_compute. repeat split.
  - intros n.
    apply (drops_never_stop Reference.browser Reference.new_WebSocket
             (c := VapiCallMonitor.wsConnection VapiCallMonitor.initial)
             (u := "wss://listen") (st := listening_session) n).
    + cbn. lia.
    + reflexivity.
    + exact listening_session_awaiting_open.
Qed.

(** A second call whose response carries a listen URL, placed while the
    first one is being polled, opens the channel and leaves the poller of
    the first call running. *)
Remark second_call_leaves_poller_running :
  let st := VapiCallMonitor.call_settled Reference.new_WebSocket
              (VapiCallMonitor.wsConnection VapiCallMonitor.initial)
              (Fulfilled monitored_call) polling_session in
  VapiCallMonitor.poller_active st = true /\ VapiCallMonitor.channel_active st = true.
Proof. vm_compute. split; reflexivity. Qed.

(** * Further properties *)

(** ** Requests *)

Section RequestFacts.

Import VapiService.

Variable B : Builtins.
Variable baseUrl apiKey : string.
Variable fetch : string -> RequestInit -> Promise Response.

Lemma request_unfold (endpoint : string) (options : RequestInit) :
  request B baseUrl apiKey fetch endpoint options
  = async
      (_ <- body_preview B options ;;
       try_catch
         (response <- await (fetch (baseUrl ++ endpoint) (request_config apiKey options)) ;;
          if negb (ok response)
          then
            errorText <- await (text response) ;;
            Throw (Error ("HTTP " ++ string_of_nat (status response) ++ ": " ++ errorText))
          else
            data <- await (json response) ;;
            Normal data)
         (fun error => Throw error)).
Proof. reflexivity. Qed.

(** X1: a request is fulfilled with [v] exactly when its body, if any, is
    JSON, the server answers with a 2xx status and the response body
    decodes to [v]. *)
Theorem request_fulfilled_iff (endpoint : string) (options : RequestInit) (v : JsValue) :
  request B baseUrl apiKey fetch endpoint options = Fulfilled v
  <-> (exists preview, body_preview B options = Normal preview)
      /\ exists response,
           fetch (baseUrl ++ endpoint) (request_config apiKey options) = Fulfilled response
           /\ ok response = true
           /\ json response = Fulfilled v.
Proof.
  rewrite request_unfold. split.
  - intros H.
    destruct (body_preview B options) as [preview|e]; [|discriminate].
    split; [eexists; reflexivity|].
    cbn in H.
    destruct (fetch (baseUrl ++ endpoint) (request_config apiKey options))
      as [response|e]; [|discriminate].
    exists response. split; [reflexivity|].
    cbn in H. destruct (ok response); cbn in H.
    + destruct (json response); [|discriminate]. cbn in H.
      split; [reflexivity|]. congruence.
    + destruct (text response); discriminate.
  - intros [[preview Hp] (response & Hf & Hok & Hj)].
    rewrite Hp, Hf. cbn. rewrite Hok, Hj. reflexivity.
Qed.

(** X3: a request whose body is not empty and is not JSON is rejected
    with the parse error, whatever the server would answer. *)
Theorem request_rejects_malformed_body (endpoint : string) (options : RequestInit)
  (b : string) (e : JsError) :
  body options = Some b ->
  truthy_string b = true ->
  JSON_parse B b = Throw e ->
  request B baseUrl apiKey fetch endpoint options = Rejected e.
Proof.
  intros Hb Ht He. rewrite request_unfold. unfold body_preview.
  rewrite Hb, Ht, He. reflexivity.
Qed.

End RequestFacts.

Lemma request_fulfilled_iff_witness :
  VapiService.request Reference.browser "https://api.vapi.ai" "key"
    (answering 200 true "" (JArr two_phones)) "/phone-number" VapiService.no_options
  = Fulfilled (JArr two_phones).
Proof.
  apply (proj2 (request_fulfilled_iff Reference.browser "https://api.vapi.ai" "key"
                  (answering 200 true "" (JArr two_phones)) "/phone-number"
                  VapiService.no_options (JArr two_phones))).
  split.
  - exists JUndefined. reflexivity.
  - eexists. split; [reflexivity|]. split; reflexivity.
Defined.

Lemma request_http_error_witness :
  VapiService.request Reference.browser "https://api.vapi.ai" "key"
    (answering 401 false "Unauthorized" JNull) "/credential" VapiService.no_options
  = Rejected (Error "HTTP 401: Unauthorized").
Proof.
  apply (request_http_error Reference.browser "https://api.vapi.ai" "key"
           (answering 401 false "Unauthorized" JNull) "/credential"
           VapiService.no_options
           (response := {| VapiService.ok := false; VapiService.status := 401;
                           VapiService.text := Fulfilled "Unauthorized";
                           VapiService.json := Fulfilled JNull |})
           (errorText := "Unauthorized")).
  - exact I.
  - reflexivity.
  - reflexivity.
  - reflexivity.
Defined.

Lemma request_rejects_malformed_body_witness :
  VapiService.request Reference.browser "https://api.vapi.ai" "key"
    (answering 200 true "" JNull) "/credential"
    {| VapiService.method := Some "POST"; VapiService.headers := [];
       VapiService.body := Some "{name}" |}
  = Rejected (SyntaxError "Unexpected token in JSON").
Proof.
  apply (request_rejects_malformed_body Reference.browser "https://api.vapi.ai" "key"
           (answering 200 true "" JNull) "/credential"
           {| VapiService.method := Some "POST"; VapiService.headers := [];
              VapiService.body := Some "{name}" |}
           (b := "{name}")); reflexivity.
Defined.


(** ** Calls, phone numbers and monitoring *)

Section ServiceFacts.

Import VapiService.

Variable B : Builtins.
Variable baseUrl apiKey : string.
Variable fetch : string -> RequestInit -> Promise Response.

(** X4: [makeCall] settles as the [POST /call] request does, whether the
    preparatory monitoring update succeeds or fails; the customer name
    defaults to [Customer], and [metadata] is sent only when it has a key. *)
Theorem makeCall_settles_as_post (assistantId phoneNumberId customerNumber : string)
  (customerName : option string) (metadata : option (list (string * JsValue))) :
  let payload :=
    call_payload assistantId phoneNumberId customerNumber customerName metadata in
  (forall text,
     JSON_stringify B payload = Normal text ->
     makeCall B baseUrl apiKey fetch assistantId phoneNumberId customerNumber
       customerName metadata
     = request B baseUrl apiKey fetch "/call"
         {| method := Some "POST"; headers := []; body := Some text |})
  /\ get (get payload "customer") "name"
     = JStr (match customerName with
             | Some "" | None => "Customer"
             | Some n => n
             end)
  /\ get payload "metadata"
     = match metadata with
       | Some (field :: fields) => JObj (field :: fields)
       | _ => JUndefined
       end.
Proof.
  cbv zeta. split; [|split].
  - intros text Htext. unfold makeCall.
    destruct (enableAssistantMonitoring B baseUrl apiKey fetch assistantId default_options);
      cbn [await bind try_catch]; rewrite Htext; reflexivity.
  - destruct customerName as [[|c n]|]; reflexivity.
  - destruct metadata as [[|field fields]|]; reflexivity.
Qed.

Lemma getPhoneNumbers_array :
  exists phones, getPhoneNumbers B baseUrl apiKey fetch = Fulfilled (JArr phones).
Proof.
  unfold getPhoneNumbers, list_or_empty.
  destruct (request B baseUrl apiKey fetch "/phone-number" no_options) as [r|e]; cbn.
  - destruct r; cbn; eexists; reflexivity.
  - eexists; reflexivity.
Qed.

Lemma filter_by_credential_spec (credentialId : string) (phones : list JsValue) :
  filter_by_credential credentialId phones
  = if existsb nullish phones
    then Throw (TypeError "Cannot read properties of undefined (reading 'credentialId')")
    else Normal (filter (has_credential credentialId) phones).
Proof.
  induction phones as [|phone rest IH]; [reflexivity|].
  cbn [filter_by_credential existsb filter].
  destruct phone; cbn [get_strict nullish bind orb]; try reflexivity;
    rewrite IH; destruct (existsb nullish rest); reflexivity.
Qed.

(** X5: [getPhoneNumbersByCredential] is always fulfilled with an array.
    It holds the phone numbers whose [credentialId] is the given one, in
    the order of the list, unless the list has a [null] or [undefined]
    entry, in which case it is empty. *)
Theorem getPhoneNumbersByCredential_filters (credentialId : string) :
  exists phones,
    getPhoneNumbers B baseUrl apiKey fetch = Fulfilled (JArr phones)
    /\ getPhoneNumbersByCredential B baseUrl apiKey fetch credentialId
       = Fulfilled (JArr (if existsb nullish phones
                          then []
                          else filter (has_credential credentialId) phones)).
Proof.
  destruct getPhoneNumbers_array as [phones H]. exists phones. split; [exact H|].
  unfold getPhoneNumbersByCredential. rewrite H. cbn [await bind].
  rewrite filter_by_credential_spec.
  destruct (existsb nullish phones); reflexivity.
Qed.

(** X6: the status [verifyAssistantMonitoring] returns never carries the
    recommendation to enable a monitoring plan: an assistant without a plan
    is told to enable listening or control features; and when both flags of
    the status are set the recommendation is "fully configured". *)
Theorem verifyAssistantMonitoring_recommendation (assistantId : string)
  (st : MonitoringStatus) :
  verifyAssistantMonitoring B baseUrl apiKey fetch assistantId = Fulfilled st ->
  recommendation st
  <> "Enable monitoring plan to get WebSocket URLs for real-time call monitoring"
  /\ (configured (monitoring st) = false ->
      recommendation st
      = "Enable listening or control features for WebSocket connectivity")
  /\ (listenEnabled (monitoring st) = true ->
      controlEnabled (monitoring st) = true ->
      recommendation st
      = "Monitoring fully configured - WebSocket connections should work").
Proof.
  unfold verifyAssistantMonitoring.
  destruct (getAssistant B baseUrl apiKey fetch assistantId) as [assistant|e];
    [|discriminate].
  cbn [await bind].
  destruct (get_strict assistant "monitorPlan") as [plan|e] eqn:Eplan; [|discriminate].
  cbn [bind].
  destruct (get_strict assistant "name") as [name|e]; [|discriminate].
  cbn. intros H. injection H as <-. cbn [recommendation monitoring configured
    listenEnabled controlEnabled].
  unfold or_else.
  destruct (truthy plan) eqn:Etruthy.
  - unfold getMonitoringRecommendation. rewrite Etruthy. cbn [negb].
    split; [|split].
    + destruct (truthy (get plan "listenEnabled")), (truthy (get plan "controlEnabled"));
        cbn; discriminate.
    + discriminate.
    + intros Hl Hc.
      assert (Hl' : truthy (get plan "listenEnabled") = true)
        by (destruct (get plan "listenEnabled") as [| |[]| | | | | | | | |]; auto; discriminate).
      assert (Hc' : truthy (get plan "controlEnabled") = true)
        by (destruct (get plan "controlEnabled") as [| |[]| | | | | | | | |]; auto; discriminate).
      rewrite Hl', Hc'. reflexivity.
  - split; [|split].
    + cbn. discriminate.
    + reflexivity.
    + cbn. discriminate.
Qed.

(** X7: the plan [enableAssistantMonitoring] sends is a plan for which
    the recommendation is "fully configured" exactly when neither option
    is [false], and it is sent as a [PATCH] of the assistant. *)
Theorem enableAssistantMonitoring_plan (assistantId : string) (options : MonitoringOptions) :
  (getMonitoringRecommendation (monitorPlan_of options)
   = "Monitoring fully configured - WebSocket connections should work"
   <-> listen options <> Some false /\ control options <> Some false)
  /\ (listen options = Some false -> control options = Some false ->
      getMonitoringRecommendation (monitorPlan_of options)
      = "Enable listening or control features for WebSocket connectivity")
  /\ (forall text,
        JSON_stringify B (JObj [("monitorPlan", monitorPlan_of options)]) = Normal text ->
        enableAssistantMonitoring B baseUrl apiKey fetch assistantId options
        = request B baseUrl apiKey fetch ("/assistant/" ++ assistantId)
            {| method := Some "PATCH"; headers := []; body := Some text |}).
Proof.
  split; [|split].
  - destruct options as [[[]|] [[]|]]; cbn; split;
      try (intros _; split; discriminate);
      try discriminate;
      try (intros [H1 H2]; congruence);
      try reflexivity.
  - destruct options as [l c]. cbn. intros -> ->. reflexivity.
  - intros text H. unfold enableAssistantMonitoring, updateAssistant.
    rewrite H. reflexivity.
Qed.

End ServiceFacts.

Lemma makeCall_settles_as_post_witness :
  VapiService.makeCall Reference.browser "https://api.vapi.ai" "key" patch_refused
    "asst_1" "pn_1" "+15550100" None None
  = Fulfilled (JObj [("id", JStr "call_1")]).
Proof.
  rewrite (proj1 (makeCall_settles_as_post Reference.browser "https://api.vapi.ai" "key"
                    patch_refused "asst_1" "pn_1" "+15550100" None None)
             _ eq_refl).
  vm_compute. reflexivity.
Defined.

Lemma verifyAssistantMonitoring_recommendation_witness :
  VapiService.recommendation
    {| VapiService.status_assistantId := "asst_1";
       VapiService.assistantName := JStr "Front desk";
       VapiService.monitoring :=
         {| VapiService.configured := true;
            VapiService.listenEnabled := true;
            VapiService.controlEnabled := true;
            VapiService.listenAuth := false;
            VapiService.controlAuth := false |};
       VapiService.recommendation :=
         "Monitoring fully configured - WebSocket connections should work" |}
  <> "Enable monitoring plan to get WebSocket URLs for real-time call monitoring".
Proof.
  apply (verifyAssistantMonitoring_recommendation Reference.browser
           "https://api.vapi.ai" "key" (answering 200 true "" monitored_assistant)
           "asst_1").
  reflexivity.
Defined.

Lemma enableAssistantMonitoring_plan_witness :
  VapiService.getMonitoringRecommendation
    (VapiService.monitorPlan_of
       {| VapiService.listen := Some false; VapiService.control := Some false |})
  = "Enable listening or control features for WebSocket connectivity".
Proof.
  apply (proj1 (proj2 (enableAssistantMonitoring_plan Reference.browser
                         "https://api.vapi.ai" "key" offline "asst_1"
                         {| VapiService.listen := Some false;
                            VapiService.control := Some false |})));
    reflexivity.
Defined.

(** ** Phone numbers *)

Section PhoneFacts.

Import Utils.

Lemma clean_dialable (s : string) : all_chars dialable (clean s) = true.
Proof.
  induction s as [|c rest IH]; [reflexivity|].
  cbn [clean]. fold (dialable c). destruct (dialable c) eqn:E; [|exact IH].
  cbn [all_chars]. rewrite E, IH. reflexivity.
Qed.

Lemma clean_fixed (s : string) : all_chars dialable s = true -> clean s = s.
Proof.
  induction s as [|c rest IH]; [reflexivity|].
  cbn [all_chars clean]. intros H. apply Bool.andb_true_iff in H. destruct H as [Hc Hrest].
  fold (dialable c). rewrite Hc, (IH Hrest). reflexivity.
Qed.

Lemma all_chars_app (p : ascii -> bool) (s t : string) :
  all_chars p (s ++ t) = all_chars p s && all_chars p t.
Proof.
  induction s as [|c rest IH]; [reflexivity|].
  cbn [append all_chars]. rewrite IH, Bool.andb_assoc. reflexivity.
Qed.

Lemma digits_clean (s : string) : digits (clean s) = digits s.
Proof.
  induction s as [|c rest IH]; [reflexivity|].
  cbn [clean digits]. destruct (is_digit c) eqn:Ed; cbn [orb digits].
  - rewrite Ed, IH. reflexivity.
  - destruct (is_plus c) eqn:Ep; [|exact IH].
    cbn [digits]. rewrite Ed. exact IH.
Qed.

Lemma prefix_plus (s : string) : String.prefix "+" ("+" ++ s) = true.
Proof. destruct s; reflexivity. Qed.

(** The four outcomes of [validateE164PhoneNumber]. *)
Lemma validateE164PhoneNumber_cases (s : string) :
  validateE164PhoneNumber s = clean s /\ String.prefix "+" (clean s) = true
  \/ validateE164PhoneNumber s = "+1" ++ clean s
  \/ validateE164PhoneNumber s = "+" ++ clean s
     /\ String.prefix "1" (clean s) = true /\ String.length (clean s) = 11.
Proof.
  unfold validateE164PhoneNumber.
  destruct (String.prefix "+" (clean s)) eqn:Eplus; cbn [negb].
  - left. split; reflexivity.
  - right. destruct (String.length (clean s) =? 10); [left; reflexivity|].
    destruct (String.length (clean s) =? 11) eqn:E11; cbn [andb]; [|left; reflexivity].
    destruct (String.prefix "1" (clean s)) eqn:E1; [|left; reflexivity].
    right. apply Nat.eqb_eq in E11. auto.
Qed.

(** X8: whatever the input, the result of [validateE164PhoneNumber]
    starts with [+] and holds only decimal digits and [+]. *)
Theorem validateE164PhoneNumber_shape (s : string) :
  String.prefix "+" (validateE164PhoneNumber s) = true
  /\ all_chars dialable (validateE164PhoneNumber s) = true.
Proof.
  pose proof (clean_dialable s) as Hc.
  destruct (validateE164PhoneNumber_cases s) as [[-> Hp]|[->|[-> _]]].
  - split; assumption.
  - split; [reflexivity|]. cbn. exact Hc.
  - split; [apply prefix_plus|]. cbn. exact Hc.
Qed.

(** X9: [validateE164PhoneNumber] has no effect on its own results. *)
Theorem validateE164PhoneNumber_idempotent (s : string) :
  validateE164PhoneNumber (validateE164PhoneNumber s) = validateE164PhoneNumber s.
Proof.
  assert (Hfix : forall r,
             String.prefix "+" r = true -> all_chars dialable r = true ->
             validateE164PhoneNumber r = r).
  { intros r Hp Hd. unfold validateE164PhoneNumber.
    rewrite (clean_fixed _ Hd), Hp. reflexivity. }
  pose proof (clean_dialable s) as Hc.
  destruct (validateE164PhoneNumber_cases s) as [[-> Hp]|[->|[-> _]]].
  - apply Hfix; assumption.
  - apply Hfix; [reflexivity | cbn; exact Hc].
  - apply Hfix; [apply prefix_plus | cbn; exact Hc].
Qed.

(** X10: [formatPhoneNumber], used for display, and
    [validateE164PhoneNumber], used before a call is placed, are the same
    function. *)
Theorem formatPhoneNumber_is_validateE164PhoneNumber (s : string) :
  formatPhoneNumber s = validateE164PhoneNumber s.
Proof.
  unfold formatPhoneNumber, validateE164PhoneNumber.
  destruct (String.prefix "+" (clean s)); reflexivity.
Qed.

(** X11: the digits of the input are kept, in order; at most a country
    code [1] is put in front of them, and none when the input has a [+]
    before its digits or is eleven digits starting with [1]. *)
Theorem validateE164PhoneNumber_digits (s : string) :
  (digits (validateE164PhoneNumber s) = digits s
   \/ digits (validateE164PhoneNumber s) = "1" ++ digits s)
  /\ (String.prefix "+" (clean s) = true ->
      digits (validateE164PhoneNumber s) = digits s)
  /\ (String.prefix "+" (clean s) = false ->
      String.length (clean s) = 11 -> String.prefix "1" (clean s) = true ->
      validateE164PhoneNumber s = "+" ++ clean s)
  /\ (String.prefix "+" (clean s) = false ->
      String.length (clean s) = 10 ->
      validateE164PhoneNumber s = "+1" ++ clean s).
Proof.
  split; [|split; [|split]].
  - destruct (validateE164PhoneNumber_cases s) as [[-> _]|[->|[-> _]]].
    + left. apply digits_clean.
    + right. cbn. rewrite digits_clean. reflexivity.
    + left. cbn. apply digits_clean.
  - intros Hp. unfold validateE164PhoneNumber. rewrite Hp. apply digits_clean.
  - intros Hp Hlen H1. unfold validateE164PhoneNumber. rewrite Hp, Hlen, H1. reflexivity.
  - intros Hp Hlen. unfold validateE164PhoneNumber. rewrite Hp, Hlen. reflexivity.
Qed.

End PhoneFacts.

Lemma validateE164PhoneNumber_digits_witness :
  digits (Utils.validateE164PhoneNumber "+44 20 7946 0958") = "442079460958"
  /\ Utils.validateE164PhoneNumber "1 (415) 555-0100" = "+14155550100"
  /\ Utils.validateE164PhoneNumber "(415) 555-0100" = "+14155550100".
Proof.
  split; [|split].
  - rewrite (proj1 (proj2 (validateE164PhoneNumber_digits "+44 20 7946 0958")) eq_refl).
    reflexivity.
  - rewrite (proj1 (proj2 (proj2 (validateE164PhoneNumber_digits "1 (415) 555-0100")))
               eq_refl eq_refl eq_refl).
    reflexivity.
  - rewrite (proj2 (proj2 (proj2 (validateE164PhoneNumber_digits "(415) 555-0100")))
               eq_refl eq_refl).
    reflexivity.
Defined.

(** ** Listing webhook events *)

Section ListingFacts.

Import WebhookStore.

Variable toISOString : string -> Completion string.

Lemma slice_to_nonneg (A : Type) (n : Z) (l : list A) :
  (0 <= n)%Z -> slice_to n l = firstn (Z.to_nat n) l.
Proof.
  intros Hn. unfold slice_to.
  destruct (Z.ltb_spec n 0) as [H|_]; [lia|].
  destruct (Z.le_gt_cases n (Z.of_nat (List.length l))) as [Hle|Hgt].
  - rewrite Z.min_l by exact Hle. reflexivity.
  - rewrite Z.min_r by lia. rewrite Nat2Z.id.
    rewrite firstn_all. symmetry. apply firstn_all2. lia.
Qed.

Lemma slice_to_neg (A : Type) (n : Z) (l : list A) :
  (n < 0)%Z -> slice_to n l = firstn (List.length l - Z.to_nat (- n)) l.
Proof.
  intros Hn. unfold slice_to.
  destruct (Z.ltb_spec n 0) as [_|H]; [|lia].
  f_equal. lia.
Qed.

Lemma listing_without_since (n : Z) (store : list WebhookEvent) :
  (0 <= n)%Z ->
  slice_to (Z.min n (Z.of_nat (List.length store))) store = firstn (Z.to_nat n) store.
Proof.
  intros Hn. rewrite slice_to_nonneg by lia.
  destruct (Z.le_gt_cases n (Z.of_nat (List.length store))) as [Hle|Hgt].
  - rewrite Z.min_l by exact Hle. reflexivity.
  - rewrite Z.min_r by lia. rewrite Nat2Z.id, firstn_all.
    symmetry. apply firstn_all2. lia.
Qed.

(** X12: with a limit that is not negative and no [since], the listing is
    the first [limit] events of the store, newest first, 50 of them when
    no limit is given. *)
Theorem listWebhookEvents_prefix (limit : option Z) (store : list WebhookEvent) :
  let n := match limit with Some n => n | None => 50%Z end in
  (0 <= n)%Z ->
  listWebhookEvents toISOString limit None store = Normal (firstn (Z.to_nat n) store)
  /\ List.length (firstn (Z.to_nat n) store) <= Z.to_nat n.
Proof.
  cbv zeta. intros Hn. unfold listWebhookEvents. split.
  - f_equal. apply listing_without_since. exact Hn.
  - apply firstn_le_length.
Qed.

(** X13: a negative limit is neither refused nor read as zero: the
    listing is the store without its last [-limit] events. *)
Theorem listWebhookEvents_negative_limit (limit : Z) (store : list WebhookEvent) :
  (limit < 0)%Z ->
  listWebhookEvents toISOString (Some limit) None store
  = Normal (firstn (List.length store - Z.to_nat (- limit)) store).
Proof.
  intros Hn. unfold listWebhookEvents. f_equal.
  rewrite Z.min_l by lia. apply slice_to_neg. exact Hn.
Qed.

(** X14: with a [since] that is a date, the listing holds the events
    among the first [limit] of the store that were received after it, so
    the cut to [limit] comes before the filter; with a [since] that is not
    a date the listing throws. *)
Theorem listWebhookEvents_since (limit : Z) (iso : string) (store : list WebhookEvent) :
  (0 <= limit)%Z ->
  truthy_string iso = true ->
  (forall since,
     toISOString iso = Normal since ->
     listWebhookEvents toISOString (Some limit) (Some iso) store
     = Normal (filter (fun e => String.ltb since (receivedAt e))
                 (firstn (Z.to_nat limit) store)))
  /\ (forall e,
        toISOString iso = Throw e ->
        listWebhookEvents toISOString (Some limit) (Some iso) store = Throw e).
Proof.
  intros Hn Hiso.
  unfold listWebhookEvents. rewrite Hiso, listing_without_since by exact Hn.
  split.
  - intros since Hs. rewrite Hs. cbn [bind]. f_equal.
    set (kept := filter _ _).
    assert (Hlen : List.length kept <= List.length (firstn (Z.to_nat limit) store))
      by apply filter_length_le.
    pose proof (firstn_le_length (Z.to_nat limit) store) as Hfirst.
    rewrite slice_to_nonneg by lia.
    apply firstn_all2. lia.
  - intros e He. rewrite He. reflexivity.
Qed.


End ListingFacts.

Lemma listWebhookEvents_prefix_witness :
  WebhookStore.listWebhookEvents iso_or_invalid (Some 2%Z) None three_events
  = Normal (firstn 2 three_events).
Proof.
  apply (proj1 (@listWebhookEvents_prefix iso_or_invalid (Some 2%Z) three_events
                  ltac:(cbn; lia))).
Defined.

Lemma listWebhookEvents_negative_limit_witness :
  WebhookStore.listWebhookEvents iso_or_invalid (Some (-1)%Z) None three_events
  = Normal (firstn 2 three_events).
Proof.
  apply (@listWebhookEvents_negative_limit iso_or_invalid (-1)%Z three_events).
  lia.
Defined.

Lemma listWebhookEvents_since_witness :
  WebhookStore.listWebhookEvents iso_or_invalid (Some 3%Z) (Some "1") three_events
  = Normal (firstn 1 three_events)
  /\ WebhookStore.listWebhookEvents iso_or_invalid (Some 3%Z) (Some "yesterday")
       three_events
     = Throw (mkError "RangeError" "Invalid time value").
Proof.
  split.
  - rewrite (proj1 (@listWebhookEvents_since iso_or_invalid 3%Z "1"
                      three_events ltac:(lia) eq_refl) "1" eq_refl).
    reflexivity.
  - apply (proj2 (@listWebhookEvents_since iso_or_invalid 3%Z "yesterday"
                    three_events ltac:(lia) eq_refl)).
    reflexivity.
Defined.


(** ** Handlers of the call monitor *)

Section HandlerFacts.

Variable B : Builtins.
Variable WebSocket_new : string -> Completion unit.

(** X16: a clean close, and an unexpected close seen by handlers whose
    [retryCount] is 3 or more, clear the connection timeout and schedule
    nothing. *)
Theorem onclose_without_retry (s : Socket) (wasClean : bool) (code : N) (reason : string)
  (st : State) :
  wasClean = true \/ 3 <= retryCount (seen s) ->
  let st' := onclose s wasClean code reason st in
  timers st' = remove_timer (connectionTimeout s) (timers st)
  /\ calls st' = (calls st ++ [ClearTimeout (connectionTimeout s)])%list
  /\ sockets st' = sockets st
  /\ connected (wsConnection st') = false.
Proof.
  intros H. cbv zeta. unfold onclose.
  destruct wasClean.
  - repeat split.
  - destruct H as [H|H]; [discriminate|].
    apply Nat.ltb_ge in H. rewrite H. repeat split.
Qed.

Lemma connectWebSocket_calls closure wsUrl (st : State) :
  truthy_string wsUrl = true ->
  calls (connectWebSocket WebSocket_new closure wsUrl st)
  = (calls st ++ opening WebSocket_new wsUrl st)%list.
Proof.
  intros Ht. unfold connectWebSocket, opening. rewrite Ht.
  destruct (WebSocket_new wsUrl); cbn;
    [rewrite <- app_assoc; reflexivity | symmetry; apply app_nil_r].
Qed.

Lemma connectWebSockets_calls closure (listenUrl controlUrl : string) (st : State) :
  calls (connectWebSockets WebSocket_new closure listenUrl controlUrl st)
  = (calls st ++ closing st ++ opening WebSocket_new listenUrl st)%list.
Proof.
  unfold connectWebSockets.
  destruct (disconnectWebSockets_frame st) as (Hc & Hn & _).
  assert (Hlisten :
            calls (if truthy_string listenUrl
                   then connectWebSocket WebSocket_new closure listenUrl
                          (disconnectWebSockets st)
                   else disconnectWebSockets st)
            = (calls st ++ closing st ++ opening WebSocket_new listenUrl st)%list).
  { destruct (truthy_string listenUrl) eqn:Ht.
    - rewrite connectWebSocket_calls by exact Ht.
      unfold opening. rewrite Ht, Hc, Hn, <- app_assoc. reflexivity.
    - unfold opening. rewrite Ht, Hc, app_nil_r. reflexivity. }
  destruct (truthy_string controlUrl); exact Hlisten.
Qed.

(** X17: [connectWebSockets] closes the socket in the ref, if any, and
    constructs at most one socket, for the listen URL; the control URL is
    never given to a socket. *)
Theorem connectWebSockets_opens_listen_only closure (listenUrl controlUrl : string)
  (st : State) :
  let st' := connectWebSockets WebSocket_new closure listenUrl controlUrl st in
  calls st' = (calls st ++ closing st ++ opening WebSocket_new listenUrl st)%list
  /\ forall w u,
       In (NewWebSocket w u) (calls st') ->
       In (NewWebSocket w u) (calls st) \/ u = listenUrl.
Proof.
  cbv zeta.
  pose proof (connectWebSockets_calls closure listenUrl controlUrl st) as Hcalls.
  split; [exact Hcalls|].
  intros w u Hin. rewrite Hcalls in Hin.
  apply in_app_or in Hin. destruct Hin as [Hin|Hin]; [left; exact Hin|].
  apply in_app_or in Hin. destruct Hin as [Hin|Hin].
  - unfold closing in Hin. destruct (listenWsRef st); cbn in Hin;
      [destruct Hin as [Hin|[]]; discriminate | contradiction].
  - right. unfold opening in Hin.
    destruct (truthy_string listenUrl); [|contradiction].
    destruct (WebSocket_new listenUrl); [|contradiction].
    destruct Hin as [Hin|[Hin|[]]]; [|discriminate].
    injection Hin as _ Hu. symmetry. exact Hu.
Qed.

(** X18: [startPollingCall] replaces the interval in the ref by a new one
    of 3000 ms for the call, and leaves sockets and the socket ref as they
    are. *)
Theorem startPollingCall_replaces closure (callId : string) (st : State) :
  let st' := startPollingCall closure callId st in
  pollRef st' = Some (next_handle st)
  /\ timers st'
     = (without_poller st
        ++ [{| handle := next_handle st; delay := 3000; repeats := true;
               task := PollTick callId closure |}])%list
  /\ sockets st' = sockets st
  /\ listenWsRef st' = listenWsRef st.
Proof.
  cbv zeta. unfold startPollingCall, stopPollingCall, without_poller.
  destruct (pollRef st); repeat split.
Qed.

(** X19: when the call settles, a response with a listen URL opens the
    channel and starts no poller; a response without one and with an id
    starts the poller and opens nothing; any other response and a failed
    call change nothing. *)
Theorem call_settled_starts_one closure (response : CallResponse) (st : State) :
  (truthy_string (monitor_listenUrl response) = true ->
   let st' := call_settled WebSocket_new closure (Fulfilled response) st in
   pollRef st' = pollRef st
   /\ timers st' = (timers st
                    ++ match WebSocket_new (monitor_listenUrl response) with
                       | Normal _ =>
                           [{| handle := Pos.succ (next_handle st); delay := 10000;
                               repeats := false;
                               task := ConnectionTimeout (next_handle st) |}]
                       | Throw _ => []
                       end)%list
   /\ calls st'
      = (calls st ++ closing st
         ++ opening WebSocket_new (monitor_listenUrl response) st)%list)
  /\ (truthy_string (monitor_listenUrl response) = false ->
      truthy_string (id response) = true ->
      call_settled WebSocket_new closure (Fulfilled response) st
      = startPollingCall closure (id response) st)
  /\ (truthy_string (monitor_listenUrl response) = false ->
      truthy_string (id response) = false ->
      call_settled WebSocket_new closure (Fulfilled response) st = st)
  /\ (forall e, call_settled WebSocket_new closure (Rejected e) st = st).
Proof.
  split; [|split; [|split]].
  - intros Hl. cbv zeta. unfold call_settled. rewrite Hl.
    split; [apply pollRef_connectWebSockets|]. split.
    + unfold connectWebSockets. rewrite Hl.
      rewrite <- (timers_disconnectWebSockets st).
      destruct (disconnectWebSockets_frame st) as (_ & Hn & _). rewrite <- Hn.
      generalize (disconnectWebSockets st). intros d.
      unfold connectWebSocket.
      destruct (truthy_string (monitor_controlUrl response)),
        (WebSocket_new (monitor_listenUrl response)); cbn;
        rewrite ?app_nil_r; reflexivity.
    + apply connectWebSockets_calls.
  - intros Hl Hid. unfold call_settled. rewrite Hl, Hid. reflexivity.
  - intros Hl Hid. unfold call_settled. rewrite Hl, Hid. reflexivity.
  - reflexivity.
Qed.


Lemma normalizeWsData_fulfilled (event_data : JsValue) :
  exists n, normalizeWsData B event_data = Fulfilled n.
Proof.
  unfold normalizeWsData. rewrite async_try_catch_total. eexists. reflexivity.
Qed.

(** X20: every incoming frame, whatever its shape, adds exactly one entry
    to the log, of type [message] or [raw] and tagged [listen], and changes
    nothing else. *)
Theorem onmessage_logs_one_entry (event_data : JsValue) (st : State) :
  let st' := onmessage B event_data st in
  (exists type data,
     (type = "message" \/ type = "raw")
     /\ wsMessages st' = slice (-100) (wsMessages st ++ [entry st type data listen]))
  /\ clock st' = S (clock st)
  /\ same_machinery st st'.
Proof.
  cbv zeta. unfold onmessage.
  destruct (normalizeWsData_fulfilled event_data) as [n ->].
  assert (Hadd : forall type data,
             type = "message" \/ type = "raw" ->
             (exists type' data',
                (type' = "message" \/ type' = "raw")
                /\ wsMessages (addWsMessage type data listen st)
                   = slice (-100) (wsMessages st ++ [entry st type' data' listen]))
             /\ clock (addWsMessage type data listen st) = S (clock st)
             /\ same_machinery st (addWsMessage type data listen st)).
  { intros type data Htype. split; [|split; [reflexivity | repeat split]].
    exists type, data. split; [exact Htype | reflexivity]. }
  destruct (isJson n && truthy (parsed n)).
  - apply Hadd. left. reflexivity.
  - destruct (isBinary n) as [[]|]; apply Hadd; right; reflexivity.
Qed.

(** X21: a text frame that is JSON is logged as a [message] carrying the
    parsed value when that value is truthy; when it is falsy ([0],
    [false], [null], the empty string) the frame is logged as [raw] text. *)
Theorem onmessage_text_frame (s : string) (v : JsValue) (st : State) :
  JSON_parse B s = Normal v ->
  truthy_string s = true ->
  wsMessages (onmessage B (JStr s) st)
  = slice (-100)
      (wsMessages st
       ++ [if truthy v
           then entry st "message" (Parsed v) listen
           else entry st "raw" (Parsed (JStr s)) listen]).
Proof.
  intros Hv Hs. unfold onmessage, normalizeWsData.
  rewrite parse_or_text_normal, Hv. cbn [try_catch async plain isJson parsed isBinary raw].
  destruct (truthy v) eqn:Ev; cbn [andb].
  - reflexivity.
  - unfold or_else. rewrite Ev. cbn [truthy]. unfold truthy_string in Hs. rewrite Hs.
    reflexivity.
Qed.

(** X22: a byte buffer of which at most 60% of the sample is printable
    is logged as a [raw] entry holding the object URL and the byte length,
    not the bytes. *)
Theorem onmessage_binary_frame (bytes : list byte) (st : State) :
  5 * sample_printable bytes <= 3 * sample_size bytes ->
  wsMessages (onmessage B (JArrayBuffer bytes) st)
  = slice (-100)
      (wsMessages st
       ++ [entry st "raw"
             (BinaryRef (Some (URL_createObjectURL B bytes)) (Some (List.length bytes)))
             listen]).
Proof.
  intros H. unfold onmessage, normalizeWsData.
  rewrite looks_like_text_exact.
  destruct (Nat.ltb_spec (3 * sample_size bytes) (5 * sample_printable bytes)) as [L|_];
    [lia|].
  reflexivity.
Qed.

(** X23: the cleanup on unmount empties both refs, starts closing the
    socket that was in the ref and clears the interval of the poller; the
    pending connection timeouts and retries are left armed. *)
Theorem unmount_leaves_timeouts (st : State) :
  let st' := unmount st in
  pollRef st' = None
  /\ listenWsRef st' = None
  /\ timers st' = without_poller st
  /\ calls st'
     = (calls st ++ closing st
        ++ match pollRef st with Some h => [ClearInterval h] | None => [] end)%list
  /\ connected (wsConnection st') = false
  /\ retryCount (wsConnection st') = 0.
Proof.
  cbv zeta. unfold unmount, without_poller.
  destruct (disconnectWebSockets_frame st) as (Hc & _ & Hp).
  pose proof (timers_disconnectWebSockets st) as Ht.
  assert (Hl : listenWsRef (disconnectWebSockets st) = None
               /\ connected (wsConnection (disconnectWebSockets st)) = false
               /\ retryCount (wsConnection (disconnectWebSockets st)) = 0).
  { unfold disconnectWebSockets.
    destruct (listenWsRef st) eqn:E; repeat split; exact E. }
  destruct Hl as (Hl & Hconn & Hretry).
  revert Hc Hp Ht Hl Hconn Hretry. generalize (disconnectWebSockets st).
  intros d Hc Hp Ht Hl Hconn Hretry.
  unfold stopPollingCall. rewrite Hp.
  destruct (pollRef st) as [h|] eqn:Eref; cbn.
  - rewrite Ht, Hc, <- app_assoc. repeat split; assumption.
  - rewrite Hc, app_nil_r. repeat split; assumption.
Qed.

(** X24: the 10-second timer acts only on a socket that is still
    connecting: it starts closing it, logs one [error] entry and clears the
    [connected] flag, and it schedules no retry itself; on a socket in any
    other state it does nothing. *)
Theorem connection_timeout_while_connecting (w : positive) (s : Socket) (st : State) :
  find_socket w st = Some s ->
  let st' := connection_timeout w st in
  (readyState s <> CONNECTING -> st' = st)
  /\ (readyState s = CONNECTING ->
      calls st' = (calls st ++ [CloseWebSocket w])%list
      /\ timers st' = timers st
      /\ connected (wsConnection st') = false
      /\ wsMessages st'
         = slice (-100)
             (wsMessages st
              ++ [entry st "error"
                    (Text "Listen WebSocket connection timeout after 10 seconds") listen])
      /\ sockets st'
         = map (fun o =>
                  if Pos.eqb (socket_id o) w
                  then {| socket_id := socket_id o; socket_url := socket_url o;
                          readyState := CLOSING; seen := seen o;
                          connectionTimeout := connectionTimeout o |}
                  else o)
             (sockets st)).
Proof.
  intros Hfind. cbv zeta. unfold connection_timeout. rewrite Hfind. split.
  - intros Hne. destruct (readyState s); congruence.
  - intros Hc. rewrite Hc. unfold socket_close.
    assert (Hfind' : find_socket w (call (CloseWebSocket w) st) = Some s) by exact Hfind.
    rewrite Hfind', Hc. repeat split.
Qed.

End HandlerFacts.

Lemma onclose_without_retry_witness :
  VapiCallMonitor.timers
    (VapiCallMonitor.onclose first_socket true 1000 "" listening_session) = [].
Proof.
  rewrite (proj1 (@onclose_without_retry first_socket true 1000%N "" listening_session
                    (or_introl eq_refl))).
  reflexivity.
Defined.

Lemma connectWebSockets_opens_listen_only_witness :
  In (VapiCallMonitor.NewWebSocket 1 "wss://listen")
     (VapiCallMonitor.calls VapiCallMonitor.initial)
  \/ "wss://listen" = "wss://listen".
Proof.
  apply (proj2 (connectWebSockets_opens_listen_only Reference.new_WebSocket
                  (VapiCallMonitor.wsConnection VapiCallMonitor.initial)
                  "wss://listen" "wss://control" VapiCallMonitor.initial)
           1%positive "wss://listen").
  left. reflexivity.
Defined.

Lemma call_settled_starts_one_witness :
  VapiCallMonitor.pollRef listening_session = None
  /\ VapiCallMonitor.call_settled Reference.new_WebSocket
       (VapiCallMonitor.wsConnection VapiCallMonitor.initial) (Fulfilled queued_call)
       VapiCallMonitor.initial
     = VapiCallMonitor.startPollingCall
         (VapiCallMonitor.wsConnection VapiCallMonitor.initial) "call_1"
         VapiCallMonitor.initial.
Proof.
  split.
  - apply (proj1 (proj1 (call_settled_starts_one Reference.new_WebSocket
                           (VapiCallMonitor.wsConnection VapiCallMonitor.initial)
                           monitored_call VapiCallMonitor.initial) eq_refl)).
  - apply (proj1 (proj2 (call_settled_starts_one Reference.new_WebSocket
                           (VapiCallMonitor.wsConnection VapiCallMonitor.initial)
                           queued_call VapiCallMonitor.initial)));
      reflexivity.
Defined.

Lemma onmessage_text_frame_witness :
  VapiCallMonitor.wsMessages
    (VapiCallMonitor.onmessage Reference.browser (JStr "0") VapiCallMonitor.initial)
  = [entry VapiCallMonitor.initial "raw" (VapiCallMonitor.Parsed (JStr "0"))
       VapiCallMonitor.listen].
Proof.
  rewrite (@onmessage_text_frame Reference.browser "0" (JNum 0) VapiCallMonitor.initial
             eq_refl eq_refl).
  reflexivity.
Defined.

Lemma onmessage_binary_frame_witness :
  VapiCallMonitor.wsMessages
    (VapiCallMonitor.onmessage Reference.browser (JArrayBuffer three_of_five)
       VapiCallMonitor.initial)
  = [entry VapiCallMonitor.initial "raw"
       (VapiCallMonitor.BinaryRef (Some "blob:5") (Some 5)) VapiCallMonitor.listen].
Proof.
  rewrite (@onmessage_binary_frame Reference.browser three_of_five VapiCallMonitor.initial).
  - reflexivity.
  - vm_compute. repeat constructor.
Defined.

Lemma connection_timeout_while_connecting_witness :
  VapiCallMonitor.calls (VapiCallMonitor.connection_timeout 1 listening_session)
  = [VapiCallMonitor.NewWebSocket 1 "wss://listen";
     VapiCallMonitor.SetTimeout 2 10000;
     VapiCallMonitor.CloseWebSocket 1].
Proof.
  rewrite (proj1 (proj2 (@connection_timeout_while_connecting 1%positive first_socket
                           listening_session eq_refl) eq_refl)).
  reflexivity.
Defined.

(** ** Descriptions of requests *)

Section DescriptionFacts.

Import VapiService.

Lemma after_prefix_sound (prefix s rest : string) :
  after_prefix prefix s = Some rest -> s = prefix ++ rest.
Proof.
  revert s. induction prefix as [|a prefix IH]; intros s H; cbn in H.
  - injection H as <-. reflexivity.
  - destruct s as [|b s]; [discriminate|].
    destruct (Ascii.eqb_spec a b) as [->|]; [|discriminate].
    cbn. f_equal. apply IH. exact H.
Qed.

Lemma after_prefix_complete (prefix rest : string) :
  after_prefix prefix (prefix ++ rest) = Some rest.
Proof.
  induction prefix as [|a prefix IH]; cbn; [reflexivity|].
  rewrite Ascii.eqb_refl. exact IH.
Qed.

Lemma before_question_clean (s : string) : no_question (before_question s) = true.
Proof.
  induction s as [|c rest IH]; [reflexivity|].
  cbn [before_question]. destruct (Ascii.eqb c "?") eqn:E; [reflexivity|].
  unfold no_question. cbn [all_chars]. rewrite E. exact IH.
Qed.

Lemma before_question_fixed (s : string) : no_question s = true -> before_question s = s.
Proof.
  unfold no_question. induction s as [|c rest IH]; [reflexivity|].
  cbn [all_chars before_question]. intros H.
  apply Bool.andb_true_iff in H. destruct H as [Hc Hrest].
  apply Bool.negb_true_iff in Hc. rewrite Hc, (IH Hrest). reflexivity.
Qed.

(** X25: the key that is matched never holds a [?], so the pattern for
    phone numbers "with query parameters" matches no request; a listing of
    phone numbers with a query string is described as the plain listing. *)
Theorem getApiDescription_ignores_query (endpoint method query : string) :
  (no_question method = true ->
   matches_start "GET /phone-number?" (method ++ " " ++ before_question endpoint) = false)
  /\ getApiDescription ("/phone-number?" ++ query) "GET"
     = "Fetch all phone numbers from VAPI account".
Proof.
  split; [|reflexivity].
  intros Hm. unfold matches_start.
  destruct (after_prefix "GET /phone-number?" (method ++ " " ++ before_question endpoint))
    as [rest|] eqn:E; [|reflexivity].
  apply after_prefix_sound in E.
  assert (Hkey : no_question (method ++ " " ++ before_question endpoint) = true).
  { unfold no_question in *. rewrite !all_chars_app, Hm.
    cbn. apply before_question_clean. }
  rewrite E in Hkey. unfold no_question in Hkey.
  rewrite all_chars_app in Hkey. cbn in Hkey. discriminate.
Qed.

(** X26: the requests the class makes for one credential, phone number or
    call are described by the entry for that kind of id, for every id that
    is not empty and has no [/] and no [?]; the update of an assistant has
    no entry and gets the generic text. *)
Theorem getApiDescription_by_id (ident : string) :
  ident <> "" -> no_slash ident = true -> no_question ident = true ->
  getApiDescription ("/credential/" ++ ident) "PATCH"
  = "Update specific SIP trunk credential by ID"
  /\ getApiDescription ("/credential/" ++ ident) "DELETE"
     = "Delete specific SIP trunk credential by ID"
  /\ getApiDescription ("/phone-number/" ++ ident) "DELETE"
     = "Delete specific phone number by ID"
  /\ getApiDescription ("/call/" ++ ident) "GET" = "Fetch specific call details by ID"
  /\ getApiDescription ("/assistant/" ++ ident) "PATCH"
     = "PATCH request to /assistant/" ++ ident.
Proof.
  intros Hne Hslash Hq.
  assert (Hid : negb (String.eqb ident "") && no_slash ident = true).
  { rewrite Hslash, Bool.andb_true_r. apply Bool.negb_true_iff.
    apply String.eqb_neq. exact Hne. }
  unfold getApiDescription.
  repeat split; cbn; rewrite ?(before_question_fixed _ Hq);
    unfold matches_with_id; cbn; rewrite ?Hid; reflexivity.
Qed.

End DescriptionFacts.

Lemma getApiDescription_ignores_query_witness :
  VapiService.matches_start "GET /phone-number?"
    ("GET" ++ " " ++ VapiService.before_question "/phone-number?limit=10") = false.
Proof.
  apply (proj1 (getApiDescription_ignores_query "/phone-number?limit=10" "GET" "limit=10")).
  reflexivity.
Defined.

Lemma getApiDescription_by_id_witness :
  VapiService.getApiDescription "/credential/cred_1" "PATCH"
  = "Update specific SIP trunk credential by ID".
Proof.
  apply (proj1 (@getApiDescription_by_id "cred_1" ltac:(discriminate) eq_refl eq_refl)).
Defined.

(** ** Further facts on events *)

Section EventFacts.

Variable B : Builtins.
Variable WebSocket_new : string -> Completion unit.


(** X28: a transport error clears the connection timeout, logs one
    [error] entry and clears the [connected] flag; it closes no socket and
    schedules no retry. *)
Theorem onerror_schedules_nothing (s : Socket) (st : State) :
  let st' := onerror s st in
  timers st' = remove_timer (connectionTimeout s) (timers st)
  /\ calls st' = (calls st ++ [ClearTimeout (connectionTimeout s)])%list
  /\ sockets st' = sockets st
  /\ listenWsRef st' = listenWsRef st
  /\ connected (wsConnection st') = false
  /\ retryCount (wsConnection st') = retryCount (wsConnection st)
  /\ wsMessages st'
     = slice (-100)
         (wsMessages st
          ++ [entry st "error" (Text "Listen WebSocket error: [object Event]") listen]).
Proof. cbv zeta. unfold onerror. repeat split. Qed.

(** X29: once a socket has opened, its 10-second timer is disarmed: the
    timer is no longer registered and its firing changes nothing; the
    [connected] flag is set and [retryCount] is left as it was. *)
Theorem onopen_disarms_timeout (s : Socket) (st : State) :
  let st' := onopen s st in
  find_timer (connectionTimeout s) st' = None
  /\ step B WebSocket_new (TimerFired (connectionTimeout s)) st' = st'
  /\ connected (wsConnection st') = true
  /\ retryCount (wsConnection st') = retryCount (wsConnection st).
Proof.
  cbv zeta.
  assert (H : find_timer (connectionTimeout s) (onopen s st) = None).
  { unfold find_timer, onopen. cbn. apply find_remove_timer. }
  split; [exact H|]. split; [|split; reflexivity].
  cbn [step]. rewrite H. reflexivity.
Qed.

(** X30: a [Blob] is never returned as plain text: the result is JSON
    parsed from its first 256 bytes, or a binary entry with the size and
    object URL of the whole blob, or the placeholder when reading it
    fails. *)
Theorem normalizeWsData_blob (bytes : list byte) :
  (forall text v,
     Blob_text B (firstn 256 bytes) = Fulfilled text ->
     JSON_parse B text = Normal v ->
     normalizeWsData B (JBlob bytes) = Fulfilled (plain v true text))
  /\ (forall text e full,
        Blob_text B (firstn 256 bytes) = Fulfilled text ->
        JSON_parse B text = Throw e ->
        Blob_arrayBuffer B bytes = Fulfilled full ->
        normalizeWsData B (JBlob bytes)
        = Fulfilled (binary_entry (URL_createObjectURL B full) (List.length full)))
  /\ (forall n,
        normalizeWsData B (JBlob bytes) = Fulfilled n ->
        isJson n = true \/ isBinary n = Some true \/ n = unreadable).
Proof.
  unfold normalizeWsData. split; [|split].
  - intros text v Ht Hv. rewrite Ht. cbn. rewrite Hv. reflexivity.
  - intros text e full Ht He Hf. rewrite Ht. cbn. rewrite He. cbn. rewrite Hf. reflexivity.
  - intros n. destruct (Blob_text B (firstn 256 bytes)) as [text|e]; cbn.
    + destruct (JSON_parse B text) as [v|e]; cbn.
      * intros H. injection H as <-. left. reflexivity.
      * destruct (Blob_arrayBuffer B bytes) as [full|e']; cbn;
          intros H; injection H as <-; [right; left | right; right]; reflexivity.
    + intros H. injection H as <-. right. right. reflexivity.
Qed.

End EventFacts.


Lemma normalizeWsData_blob_witness :
  VapiCallMonitor.normalizeWsData Reference.browser (JBlob three_of_four)
  = Fulfilled (VapiCallMonitor.binary_entry "blob:4" 4).
Proof.
  apply (proj1 (proj2 (normalizeWsData_blob Reference.browser three_of_four))
           (Reference.decode three_of_four)
           (SyntaxError "Unexpected non-whitespace character after JSON")
           three_of_four);
    reflexivity.
Defined.
